(** * fabric.js polyline geometry and polygon controls

    A shallow embedding of [src/shapes/polyline.class.ts] (the bounding
    geometry of a polyline) and of the [PolyControl] class (the per-vertex
    drag controls), with the properties the specification states about
    them.

    JavaScript numbers are kept abstract behind the interface [Number]: the
    functions are written once and read either over the real numbers (exact
    arithmetic, where the algebraic properties are proved) or over binary64
    floats (the numbers the program runs on, where concrete runs are
    evaluated, NaN and the infinities included). *)

From Stdlib Require Import Reals Lra ZArith Lia List String Bool Floats.
From Stdlib Require Import Decimal DecimalString DecimalNat.
Import ListNotations.

Set Implicit Arguments.

(** * Numbers *)

(** The arithmetic a JavaScript number offers to this code: the literals the
    source writes, the four operations, unary minus, [Math.min], [Math.max]
    and the global [isNaN]. *)
Class Number (T : Type) : Type := {
  nzero : T;
  none : T;
  ntwo : T;
  nhalf : T;
  nadd : T -> T -> T;
  nsub : T -> T -> T;
  nmul : T -> T -> T;
  ndiv : T -> T -> T;
  nopp : T -> T;
  Math_min : T -> T -> T;
  Math_max : T -> T -> T;
  isNaN : T -> bool
}.

(** The part of the host's [Math] object the code calls, and the constant
    [Math.PI / 180] behind [degreesToRadians]. *)
Class MathObject (T : Type) : Type := {
  Math_tan : T -> T;
  Math_cos : T -> T;
  Math_sin : T -> T;
  PiBy180 : T
}.

Declare Scope num_scope.
Delimit Scope num_scope with num.
Infix "+" := nadd : num_scope.
Infix "-" := nsub : num_scope.
Infix "*" := nmul : num_scope.
Infix "/" := ndiv : num_scope.
Notation "- a" := (nopp a) : num_scope.

(** Exact arithmetic.  A real number is never NaN.  The quotient by zero is
    not the one of JavaScript (which answers NaN or an infinity): every
    property proved over the reals that goes through a quotient assumes its
    divisor is not zero. *)
#[export] Instance RNumber : Number R := {|
  nzero := 0%R;
  none := 1%R;
  ntwo := 2%R;
  nhalf := (1 / 2)%R;
  nadd := Rplus;
  nsub := Rminus;
  nmul := Rmult;
  ndiv := Rdiv;
  nopp := Ropp;
  Math_min := Rmin;
  Math_max := Rmax;
  isNaN := fun _ => false
|}.

#[export] Instance RMath : MathObject R := {|
  Math_tan := tan;
  Math_cos := cos;
  Math_sin := sin;
  PiBy180 := (PI / 180)%R
|}.

(** [Math.min] on binary64: NaN as soon as one argument is NaN, and -0 is
    smaller than +0. *)
Definition float_min (a b : float) : float :=
  if (PrimFloat.is_nan a || PrimFloat.is_nan b)%bool then nan
  else if (a <? b)%float then a
  else if (b <? a)%float then b
  else if PrimFloat.get_sign a then a else b.

(** [Math.max] on binary64: NaN as soon as one argument is NaN, and +0 is
    larger than -0. *)
Definition float_max (a b : float) : float :=
  if (PrimFloat.is_nan a || PrimFloat.is_nan b)%bool then nan
  else if (a <? b)%float then b
  else if (b <? a)%float then a
  else if PrimFloat.get_sign a then b else a.

(** IEEE 754 binary64, the numbers of JavaScript. *)
#[export] Instance FloatNumber : Number float := {|
  nzero := 0%float;
  none := 1%float;
  ntwo := 2%float;
  nhalf := 0.5%float;
  nadd := PrimFloat.add;
  nsub := PrimFloat.sub;
  nmul := PrimFloat.mul;
  ndiv := PrimFloat.div;
  nopp := PrimFloat.opp;
  Math_min := float_min;
  Math_max := float_max;
  isNaN := PrimFloat.is_nan
|}.

(** A host [Math] for binary64.  ECMAScript fixes [Math.tan], [Math.sin] and
    [Math.cos] at the zeros, at NaN and at the infinities only, and leaves
    every other value to the implementation as an approximation.  This host
    answers the mandated values and, elsewhere, the first terms of the
    series; the runs evaluated below call it at zero only. *)
Definition host_tan (d : float) : float :=
  if PrimFloat.is_infinity d then nan else d.

Definition host_sin (d : float) : float :=
  if PrimFloat.is_infinity d then nan else d.

Definition host_cos (d : float) : float :=
  if PrimFloat.is_infinity d then nan
  else if PrimFloat.is_zero d then 1%float
  else (1 - d * d / 2)%float.

#[export] Instance FloatMath : MathObject float := {|
  Math_tan := host_tan;
  Math_cos := host_cos;
  Math_sin := host_sin;
  PiBy180 := 0x1.1df46a2529d39p-6%float
|}.

(** [degreesToRadians] of [util/misc/radiansDegreesConversion]. *)
Definition degreesToRadians {T} `{Number T} `{MathObject T} (degrees : T) : T :=
  (degrees * PiBy180)%num.

(** * Arrays *)

(** [a[i]] for a JavaScript array held as a list: [None] stands for
    [undefined] (an index that is negative or past the end). *)
Definition array_get {A} (a : list A) (i : Z) : option A :=
  if (i <? 0)%Z then None else nth_error a (Z.to_nat i).

Fixpoint replace_nth {A} (a : list A) (n : nat) (v : A) : list A :=
  match a, n with
  | [], _ => []
  | _ :: rest, O => v :: rest
  | h :: rest, S m => h :: replace_nth rest m v
  end.

(** [a[i] = v].  Inside the array the element is replaced, at the length the
    array grows by one.  A negative index sets a property that is no element
    and leaves the elements alone.  Past the length JavaScript leaves holes,
    which a list does not have: the model stops there ([None]). *)
Definition array_set {A} (a : list A) (i : Z) (v : A) : option (list A) :=
  if (i <? 0)%Z then Some a
  else if (i <? Z.of_nat (List.length a))%Z then Some (replace_nth a (Z.to_nat i) v)
  else if (i =? Z.of_nat (List.length a))%Z then Some (a ++ [v])
  else None.

(** A JavaScript object used as a dictionary from property names, in
    insertion order. *)
Fixpoint lookup {A} (o : list (string * A)) (key : string) : option A :=
  match o with
  | [] => None
  | (k, v) :: rest => if String.eqb k key then Some v else lookup rest key
  end.

(** * Matrices and points *)

(** Modelled from the spec: [TMat2D] of [typedefs], the 2x3 affine matrix
    [[a, b, c, d, e, f]] (section 3, AffineMatrix); [iMatrix] of [constants]
    and [multiplyTransformMatrices] of [util/misc/matrix] (section 6, matrix
    composition) are not among the source files. *)
Module TMat2D.

Record t (T : Type) : Type := mk { a : T; b : T; c : T; d : T; e : T; f : T }.

Arguments mk {T}.
Arguments a {T}.
Arguments b {T}.
Arguments c {T}.
Arguments d {T}.
Arguments e {T}.
Arguments f {T}.

Section WithNumber.
Context {T : Type} `{Number T}.
Local Open Scope num_scope.

Definition iMatrix : t T := mk none nzero nzero none nzero nzero.

Definition multiplyTransformMatrices (m n : t T) : t T :=
  mk (a m * a n + c m * b n)
     (b m * a n + d m * b n)
     (a m * c n + c m * d n)
     (b m * c n + d m * d n)
     (a m * e n + c m * f n + e m)
     (b m * e n + d m * f n + f m).

End WithNumber.
End TMat2D.

(** Modelled from the spec: the [Point] class of [point.class] (section 3:
    a pair with componentwise add, subtract, multiply and divide, scalar-add
    and the transformation by an affine matrix) is not among the source
    files. *)
Module Point.

Record t (T : Type) : Type := mk { x : T; y : T }.

Arguments mk {T}.
Arguments x {T}.
Arguments y {T}.

Section WithNumber.
Context {T : Type} `{Number T}.
Local Open Scope num_scope.

(** [new Point()] *)
Definition new : t T := mk nzero nzero.

Definition add (p q : t T) : t T := mk (x p + x q) (y p + y q).

Definition subtract (p q : t T) : t T := mk (x p - x q) (y p - y q).

Definition multiply (p q : t T) : t T := mk (x p * x q) (y p * y q).

Definition divide (p q : t T) : t T := mk (x p / x q) (y p / y q).

Definition scalarAdd (p : t T) (scalar : T) : t T :=
  mk (x p + scalar) (y p + scalar).

Definition transform (p : t T) (m : TMat2D.t T) : t T :=
  mk (TMat2D.a m * x p + TMat2D.c m * y p + TMat2D.e m)
     (TMat2D.b m * x p + TMat2D.d m * y p + TMat2D.f m).

End WithNumber.
End Point.

(** * The shape *)

(** [originX] and [originY]: one of the named anchors or a number, the
    origin fraction (0 at the left or top edge, 1 at the right or bottom
    edge). *)
Inductive Origin (T : Type) : Type :=
  | origin_left
  | origin_top
  | origin_center
  | origin_right
  | origin_bottom
  | origin_number (fraction : T).

Arguments origin_left {T}.
Arguments origin_top {T}.
Arguments origin_center {T}.
Arguments origin_right {T}.
Arguments origin_bottom {T}.
Arguments origin_number {T}.

(** The canvas a shape may be attached to; [viewportTransform] is [None]
    when the property is null or undefined. *)
Record Canvas (T : Type) : Type := {
  viewportTransform : option (TMat2D.t T)
}.

(** What [PolyControl] adds to a control: the index of its vertex. *)
Record Control : Type := {
  pointIndex : Z
}.

(** An element of the sequence [projectStrokeOnPoints] returns. *)
Record Projection (T : Type) : Type := {
  projectedPoint : Point.t T
}.

(** The result of [makeBoundingBoxFromPoints]. *)
Module BBox.

Record t (T : Type) : Type := mk { left : T; top : T; width : T; height : T }.

Arguments mk {T}.
Arguments left {T}.
Arguments top {T}.
Arguments width {T}.
Arguments height {T}.

End BBox.

(** A value handed to [_set]. *)
Inductive Value (T : Type) : Type :=
  | VNumber (n : T)
  | VBoolean (b : bool)
  | VString (s : string).

Arguments VNumber {T}.
Arguments VBoolean {T}.
Arguments VString {T}.

(** The options of [_setPositionDimensions]: [left] and [top] are [None]
    when undefined. *)
Record PositionOptions (T : Type) : Type := {
  opt_left : option T;
  opt_top : option T;
  fromSVG : bool
}.

(** The options object of [_getTransformedDimensions]: property overrides,
    the first binding of a name being the one in force. *)
Definition DimOptions (T : Type) : Type := list (string * T).

(** A call [_set] makes on the shape, recorded in the order made. *)
Inductive Call : Type :=
  | call_setPositionDimensions.

Module Polyline.

(** The fields of [fabric.Polyline] (its own and those of [fabric.Object])
    that the code below reads or writes. *)
Record t (T : Type) : Type := mk {
  points : list (Point.t T);
  strokeWidth : T;
  strokeUniform : bool;
  strokeLineJoin : string;
  scaleX : T;
  scaleY : T;
  skewX : T;
  skewY : T;
  angle : T;
  flipX : bool;
  flipY : bool;
  originX : Origin T;
  originY : Origin T;
  left : T;
  top : T;
  width : T;
  height : T;
  pathOffset : Point.t T;
  canvas : option (Canvas T);
  controls : list (string * Control);
  __corner : string
}.

Section Fields.
Context {T : Type}.

Definition set_points (this : t T) (v : list (Point.t T)) : t T :=
  {| points := v; strokeWidth := strokeWidth this;
     strokeUniform := strokeUniform this; strokeLineJoin := strokeLineJoin this;
     scaleX := scaleX this; scaleY := scaleY this;
     skewX := skewX this; skewY := skewY this; angle := angle this;
     flipX := flipX this; flipY := flipY this;
     originX := originX this; originY := originY this;
     left := left this; top := top this;
     width := width this; height := height this;
     pathOffset := pathOffset this; canvas := canvas this;
     controls := controls this; __corner := __corner this |}.

Definition set_width (this : t T) (v : T) : t T :=
  {| points := points this; strokeWidth := strokeWidth this;
     strokeUniform := strokeUniform this; strokeLineJoin := strokeLineJoin this;
     scaleX := scaleX this; scaleY := scaleY this;
     skewX := skewX this; skewY := skewY this; angle := angle this;
     flipX := flipX this; flipY := flipY this;
     originX := originX this; originY := originY this;
     left := left this; top := top this;
     width := v; height := height this;
     pathOffset := pathOffset this; canvas := canvas this;
     controls := controls this; __corner := __corner this |}.

Definition set_height (this : t T) (v : T) : t T :=
  {| points := points this; strokeWidth := strokeWidth this;
     strokeUniform := strokeUniform this; strokeLineJoin := strokeLineJoin this;
     scaleX := scaleX this; scaleY := scaleY this;
     skewX := skewX this; skewY := skewY this; angle := angle this;
     flipX := flipX this; flipY := flipY this;
     originX := originX this; originY := originY this;
     left := left this; top := top this;
     width := width this; height := v;
     pathOffset := pathOffset this; canvas := canvas this;
     controls := controls this; __corner := __corner this |}.

Definition set_left (this : t T) (v : T) : t T :=
  {| points := points this; strokeWidth := strokeWidth this;
     strokeUniform := strokeUniform this; strokeLineJoin := strokeLineJoin this;
     scaleX := scaleX this; scaleY := scaleY this;
     skewX := skewX this; skewY := skewY this; angle := angle this;
     flipX := flipX this; flipY := flipY this;
     originX := originX this; originY := originY this;
     left := v; top := top this;
     width := width this; height := height this;
     pathOffset := pathOffset this; canvas := canvas this;
     controls := controls this; __corner := __corner this |}.

Definition set_top (this : t T) (v : T) : t T :=
  {| points := points this; strokeWidth := strokeWidth this;
     strokeUniform := strokeUniform this; strokeLineJoin := strokeLineJoin this;
     scaleX := scaleX this; scaleY := scaleY this;
     skewX := skewX this; skewY := skewY this; angle := angle this;
     flipX := flipX this; flipY := flipY this;
     originX := originX this; originY := originY this;
     left := left this; top := v;
     width := width this; height := height this;
     pathOffset := pathOffset this; canvas := canvas this;
     controls := controls this; __corner := __corner this |}.

Definition set_pathOffset (this : t T) (v : Point.t T) : t T :=
  {| points := points this; strokeWidth := strokeWidth this;
     strokeUniform := strokeUniform this; strokeLineJoin := strokeLineJoin this;
     scaleX := scaleX this; scaleY := scaleY this;
     skewX := skewX this; skewY := skewY this; angle := angle this;
     flipX := flipX this; flipY := flipY this;
     originX := originX this; originY := originY this;
     left := left this; top := top this;
     width := width this; height := height this;
     pathOffset := v; canvas := canvas this;
     controls := controls this; __corner := __corner this |}.

(** The number, boolean or string a key of [_set] stores, when the value has
    the type of the field; the field keeps its content otherwise. *)
Definition number_for (key name : string) (value : Value T) (old : T) : T :=
  match value with
  | VNumber n => if String.eqb key name then n else old
  | _ => old
  end.

Definition boolean_for (key name : string) (value : Value T) (old : bool) : bool :=
  match value with
  | VBoolean b => if String.eqb key name then b else old
  | _ => old
  end.

Definition string_for (key name : string) (value : Value T) (old : string) : string :=
  match value with
  | VString s => if String.eqb key name then s else old
  | _ => old
  end.

(** Modelled from the spec: [_set] of [fabric.Object], reached through
    [callSuper], is not among the source files; section 9 describes it as
    the plain assignment of the named field.  Keys outside the number,
    boolean and string fields of the record change nothing here. *)
Definition Object__set (key : string) (value : Value T) (this : t T) : t T :=
  {| points := points this;
     strokeWidth := number_for key "strokeWidth" value (strokeWidth this);
     strokeUniform := boolean_for key "strokeUniform" value (strokeUniform this);
     strokeLineJoin := string_for key "strokeLineJoin" value (strokeLineJoin this);
     scaleX := number_for key "scaleX" value (scaleX this);
     scaleY := number_for key "scaleY" value (scaleY this);
     skewX := number_for key "skewX" value (skewX this);
     skewY := number_for key "skewY" value (skewY this);
     angle := number_for key "angle" value (angle this);
     flipX := boolean_for key "flipX" value (flipX this);
     flipY := boolean_for key "flipY" value (flipY this);
     originX := originX this; originY := originY this;
     left := number_for key "left" value (left this);
     top := number_for key "top" value (top this);
     width := number_for key "width" value (width this);
     height := number_for key "height" value (height this);
     pathOffset := pathOffset this; canvas := canvas this;
     controls := controls this; __corner := __corner this |}.

End Fields.

(** The collaborators of the class that are not among the source files:
    [fabric.util.projectStrokeOnPoints] (section 6, StrokeProjector) and
    [_getTransformedDimensions] of [fabric.Object], which the polyline
    overrides and reaches through [callSuper]. *)
Class Collaborators (T : Type) : Type := {
  projectStrokeOnPoints : list (Point.t T) -> t T -> bool -> list (Projection T);
  Object__getTransformedDimensions : t T -> DimOptions T -> Point.t T
}.

(** What [commonRender] asks of the rendering context. *)
Inductive CanvasCommand (T : Type) : Type :=
  | beginPath
  | moveTo (x y : T)
  | lineTo (x y : T).

Arguments beginPath {T}.
Arguments moveTo {T}.
Arguments lineTo {T}.

(** The shape and the rendering context a render call runs on. *)
Record RenderState (T : Type) : Type := {
  rs_this : t T;
  rs_ctx : list (CanvasCommand T)
}.

Section Methods.
Context {T : Type} `{Number T} `{MathObject T} `{Collaborators T}.
Local Open Scope num_scope.

Definition bounding_box_of (p : Point.t T) (rest : list (Point.t T)) : BBox.t T :=
  let minX := fold_left (fun m q => Math_min m (Point.x q)) rest (Point.x p) in
  let minY := fold_left (fun m q => Math_min m (Point.y q)) rest (Point.y p) in
  let maxX := fold_left (fun m q => Math_max m (Point.x q)) rest (Point.x p) in
  let maxY := fold_left (fun m q => Math_max m (Point.y q)) rest (Point.y p) in
  BBox.mk minX minY (maxX - minX) (maxY - minY).

(** Modelled from the spec: [makeBoundingBoxFromPoints] of
    [util/misc/boundingBoxFromPoints] is not among the source files.
    Section 4.2: [left = min(x)], [top = min(y)], [width = max(x) - min(x)],
    [height = max(y) - min(y)], an empty input being read as the single
    point (0,0). *)
Definition makeBoundingBoxFromPoints (pts : list (Point.t T)) : BBox.t T :=
  match pts with
  | [] => bounding_box_of (Point.mk nzero nzero) []
  | p :: rest => bounding_box_of p rest
  end.

Definition _projectStrokeOnPoints (this : t T) : list (Projection T) :=
  projectStrokeOnPoints (points this) this true.

Definition _calcDimensions (this : t T) : BBox.t T :=
  let points := map (fun elem => projectedPoint elem) (_projectStrokeOnPoints this) in
  if Nat.eqb (List.length points) 0
  then makeBoundingBoxFromPoints [Point.mk nzero nzero]
  else makeBoundingBoxFromPoints points.

(** The override: the inherited routine is called with the options it was
    given and the skew forced to zero. *)
Definition _getTransformedDimensions (this : t T) (options : DimOptions T) : Point.t T :=
  Object__getTransformedDimensions this
    (("skewX"%string, nzero) :: ("skewY"%string, nzero) :: options).

(** Modelled from the spec: the origin helpers of [fabric.Object] are not
    among the source files.  An origin is a fraction of the box, 0 at the
    left or top edge, 0.5 at the center and 1 at the right or bottom edge
    (section 4.4 step 4 and the glossary); [resolveOrigin] is its distance
    from the center. *)
Definition resolveOrigin (o : Origin T) : T :=
  match o with
  | origin_left | origin_top => - nhalf
  | origin_center => nzero
  | origin_right | origin_bottom => nhalf
  | origin_number fraction => fraction - nhalf
  end.

(** Modelled from the spec: section 4.3 step 5, the conversion of a point
    from one origin anchor to another along the transformed dimensions of
    the box. *)
Definition translateToGivenOrigin (this : t T) (point : Point.t T)
    (fromOriginX fromOriginY toOriginX toOriginY : Origin T) : Point.t T :=
  let offsetX := resolveOrigin toOriginX - resolveOrigin fromOriginX in
  let offsetY := resolveOrigin toOriginY - resolveOrigin fromOriginY in
  let dim := _getTransformedDimensions this [] in
  Point.mk (Point.x point + offsetX * Point.x dim)
           (Point.y point + offsetY * Point.y dim).

(** The rotation of a vector by the angle of the shape (in degrees). *)
Definition rotateVector (this : t T) (v : Point.t T) : Point.t T :=
  let radians := degreesToRadians (angle this) in
  let cosA := Math_cos radians in
  let sinA := Math_sin radians in
  Point.mk (Point.x v * cosA - Point.y v * sinA)
           (Point.x v * sinA + Point.y v * cosA).

(** Modelled from the spec: the position of the center of the shape given
    the position of one of its origins, the box being rotated about that
    point (section 4.4 step 5: rotation is honored). *)
Definition translateToCenterPoint (this : t T) (point : Point.t T)
    (originX originY : Origin T) : Point.t T :=
  let p := translateToGivenOrigin this point originX originY origin_center origin_center in
  Point.add point (rotateVector this (Point.subtract p point)).

(** Modelled from the spec: the position of an origin of the shape given
    the position of its center. *)
Definition translateToOriginPoint (this : t T) (center : Point.t T)
    (originX originY : Origin T) : Point.t T :=
  let p := translateToGivenOrigin this center origin_center origin_center originX originY in
  Point.add center (rotateVector this (Point.subtract p center)).

Definition getCenterPoint (this : t T) : Point.t T :=
  translateToCenterPoint this (Point.mk (left this) (top this)) (originX this) (originY this).

(** Modelled from the spec: [setPositionByOrigin] of [fabric.Object] is not
    among the source files.  Section 4.4 step 5: [left] and [top] are solved
    so that the point of the shape at the given origin lands on [pos]. *)
Definition setPositionByOrigin (this : t T) (pos : Point.t T)
    (originX originY : Origin T) : t T :=
  let center := translateToCenterPoint this pos originX originY in
  let position := translateToOriginPoint this center (Polyline.originX this) (Polyline.originY this) in
  set_top (set_left this (Point.x position)) (Point.y position).

(** Modelled from the spec: [calcTransformMatrix] of [fabric.Object] is not
    among the source files.  Section 3: the composition of translation (to
    the center), rotation, scale (with the flips) and skew; the skew is the
    sequential one of section 4.1 (y first, then x). *)
Definition calcTransformMatrix (this : t T) : TMat2D.t T :=
  let center := getCenterPoint this in
  let radians := degreesToRadians (angle this) in
  let translateMatrix :=
    TMat2D.mk none nzero nzero none (Point.x center) (Point.y center) in
  let rotateMatrix :=
    TMat2D.mk (Math_cos radians) (Math_sin radians)
              (- Math_sin radians) (Math_cos radians) nzero nzero in
  let scaleMatrix :=
    TMat2D.mk (if flipX this then - scaleX this else scaleX this) nzero
              nzero (if flipY this then - scaleY this else scaleY this)
              nzero nzero in
  let skewXMatrix :=
    TMat2D.mk none nzero (Math_tan (degreesToRadians (skewX this))) none nzero nzero in
  let skewYMatrix :=
    TMat2D.mk none (Math_tan (degreesToRadians (skewY this))) nzero none nzero nzero in
  TMat2D.multiplyTransformMatrices translateMatrix
    (TMat2D.multiplyTransformMatrices rotateMatrix
      (TMat2D.multiplyTransformMatrices scaleMatrix
        (TMat2D.multiplyTransformMatrices skewXMatrix skewYMatrix))).

Definition _setPositionDimensions (this : t T) (options : PositionOptions T) : t T :=
  let bbox := _calcDimensions this in
  let strokeCorrection :=
    Point.divide
      (Point.scalarAdd Point.new (strokeWidth this))
      (if strokeUniform this
       then Point.mk (scaleX this) (scaleY this)
       else Point.scalarAdd Point.new none) in
  let this := set_width this (BBox.width bbox - Point.x strokeCorrection) in
  let this := set_height this (BBox.height bbox - Point.y strokeCorrection) in
  let this :=
    match opt_left options, opt_top options with
    | Some _, Some _ => this
    | l, t0 =>
      let origin :=
        translateToGivenOrigin this
          (if fromSVG options
           then Point.mk (BBox.left bbox) (BBox.top bbox)
           else Point.mk (left this) (top this))
          origin_left origin_top (originX this) (originY this) in
      let this :=
        match l with None => set_left this (Point.x origin) | Some _ => this end in
      match t0 with None => set_top this (Point.y origin) | Some _ => this end
    end in
  let offsetX := BBox.left bbox + BBox.width bbox / ntwo in
  let offsetY := BBox.top bbox + BBox.height bbox / ntwo in
  let pathOffsetX := offsetX - offsetY * Math_tan (degreesToRadians (skewX this)) in
  let pathOffsetY := offsetY - pathOffsetX * Math_tan (degreesToRadians (skewY this)) in
  set_pathOffset this (Point.mk pathOffsetX pathOffsetY).

(** A call with no argument: [{ left, top, fromSVG } = {}]. *)
Definition no_options : PositionOptions T :=
  {| opt_left := None; opt_top := None; fromSVG := false |}.

(** Modelled from the spec: the control calls [poly.setDimensions()], which
    the class of the source files does not define; section 4.4 step 7 reads
    it as the recompute with no option. *)
Definition setDimensions (this : t T) : t T :=
  _setPositionDimensions this no_options.

(** [_set]: the shape after the call, and the calls of
    [_setPositionDimensions] it made. *)
Definition _set (key : string) (value : Value T) (this : t T) : t T * list Call :=
  let this := Object__set key value this in
  if ((String.eqb key "scaleX" || String.eqb key "scaleY")
      && strokeUniform this
      && negb (String.eqb (strokeLineJoin this) "round"))%bool
  then (_setPositionDimensions this no_options, [call_setPositionDimensions])
  else if (String.eqb key "skewX" || String.eqb key "skewY")%bool
  then (_setPositionDimensions this no_options, [call_setPositionDimensions])
  else (this, []).

(** [commonRender]: the returned boolean and the state it leaves.  With a
    point in the array, [this.points[len - 1]] is its last element. *)
Definition commonRender (st : RenderState T) : bool * RenderState T :=
  let this := rs_this st in
  let x := Point.x (pathOffset this) in
  let y := Point.y (pathOffset this) in
  match points this with
  | [] => (false, st)
  | first :: _ =>
    if isNaN (Point.y (List.last (points this) first))
    then (false, st)
    else
      let ctx := rs_ctx st ++ [beginPath] in
      let ctx := ctx ++ [moveTo (Point.x first - x) (Point.y first - y)] in
      let ctx :=
        ctx ++ map (fun point => lineTo (Point.x point - x) (Point.y point - y))
                   (points this) in
      (true, {| rs_this := this; rs_ctx := ctx |})
  end.

End Methods.

(** [type: 'polyline'] *)
Definition type : string := "polyline".

(** An element of the array that [_toSVG] fills and joins: a number or a
    string. *)
Inductive SvgPiece (T : Type) : Type :=
  | piece_number (n : T)
  | piece_string (s : string).

Arguments piece_number {T}.
Arguments piece_string {T}.

(** What [_toSVG], [_render] take from outside the class:
    [fabric.util.toFixed], [config.NUM_FRACTION_DIGITS], the conversion of a
    number to a string that [join] applies to the numbers of an array, and
    [_renderPaintInOrder] of [fabric.Object]. *)
Class Output (T : Type) : Type := {
  toFixed : T -> Z -> T;
  NUM_FRACTION_DIGITS : Z;
  numberToString : T -> string;
  _renderPaintInOrder : RenderState T -> RenderState T
}.

(** The double quote and the line feed, which the strings of [_toSVG]
    hold. *)
Definition double_quote : string := String (Ascii.ascii_of_nat 34) EmptyString.

Definition line_feed : string := String (Ascii.ascii_of_nat 10) EmptyString.

Section Rendering.
Context {T : Type} `{Number T} `{Output T}.
Local Open Scope num_scope.

(** The array [points] of [_toSVG] once its loop is over: four pushes per
    point. *)
Definition _toSVG_points (this : t T) : list (SvgPiece T) :=
  let diffX := Point.x (pathOffset this) in
  let diffY := Point.y (pathOffset this) in
  flat_map
    (fun p =>
       [piece_number (toFixed (Point.x p - diffX) NUM_FRACTION_DIGITS);
        piece_string ",";
        piece_number (toFixed (Point.y p - diffY) NUM_FRACTION_DIGITS);
        piece_string " "])
    (points this).

(** [pieces.join('')] *)
Definition join (pieces : list (SvgPiece T)) : string :=
  String.concat EmptyString
    (map (fun piece =>
            match piece with
            | piece_number n => numberToString n
            | piece_string s => s
            end)
         pieces).

Definition _toSVG (this : t T) : list string :=
  [("<" ++ type ++ " ")%string;
   "COMMON_PARTS"%string;
   ("points=" ++ double_quote)%string;
   join (_toSVG_points this);
   (double_quote ++ " />" ++ line_feed)%string].

(** [_render]: the state the call leaves. *)
Definition _render (st : RenderState T) : RenderState T :=
  let (drawn, st) := commonRender st in
  if negb drawn then st else _renderPaintInOrder st.

(** [complexity]: [this.get('points').length] *)
Definition complexity (this : t T) : nat :=
  List.length (points this).

End Rendering.
End Polyline.

(** * The polygon control *)

Module PolyControl.

(** [getLocalPoint] of the controls' [util], not among the source files: the
    pointer position [(x, y)] read in the frame of the shape, from the given
    origin. *)
Class ControlUtil (T : Type) : Type := {
  getLocalPoint : Polyline.t T -> Origin T -> Origin T -> T -> T -> Point.t T
}.

(** A [TransformActionHandler] on the target of the transform (the event
    data is not read): the shape it is called on, the pointer position, and
    what it returns with the shape it leaves; [None] when the call throws. *)
Definition TransformActionHandler (T : Type) : Type :=
  Polyline.t T -> T -> T -> option (bool * Polyline.t T).

Section Methods.
Context {T : Type} `{Number T} `{MathObject T}
  `{Polyline.Collaborators T} `{ControlUtil T}.
Local Open Scope num_scope.

Definition applySkew (point shear : Point.t T) : Point.t T :=
  let skewedPoint_y := Point.y point + Point.x point * Point.y shear in
  let skewedPoint_x := Point.x point + skewedPoint_y * Point.x shear in
  Point.mk skewedPoint_x skewedPoint_y.

Definition removeSkew (point shear : Point.t T) : Point.t T :=
  let unskewedPoint_x := Point.x point - Point.y point * Point.x shear in
  let unskewedPoint_y := Point.y point - unskewedPoint_x * Point.y shear in
  Point.mk unskewedPoint_x unskewedPoint_y.

Definition getSize (poly : Polyline.t T) : Point.t T :=
  Point.mk (Polyline.width poly) (Polyline.height poly).

(** [new Point(Math.tan(degreesToRadians(poly.skewX)),
    Math.tan(degreesToRadians(poly.skewY)))] *)
Definition shearOf (poly : Polyline.t T) : Point.t T :=
  Point.mk (Math_tan (degreesToRadians (Polyline.skewX poly)))
           (Math_tan (degreesToRadians (Polyline.skewY poly))).

(** [new Point(poly.flipX ? -1 : 1, poly.flipY ? -1 : 1)] *)
Definition adjustFlipOf (poly : Polyline.t T) : Point.t T :=
  Point.mk (if Polyline.flipX poly then - none else none)
           (if Polyline.flipY poly then - none else none).

(** [poly.controls[poly.__corner]] *)
Definition currentControlOf (poly : Polyline.t T) : option Control :=
  lookup (Polyline.controls poly) (Polyline.__corner poly).

(** [polyObject.canvas?.viewportTransform ?? iMatrix] *)
Definition viewportOf (polyObject : Polyline.t T) : TMat2D.t T :=
  match Polyline.canvas polyObject with
  | Some canvas =>
    match viewportTransform canvas with
    | Some m => m
    | None => TMat2D.iMatrix
    end
  | None => TMat2D.iMatrix
  end.

(** [positionHandler], without the arguments [dim] and [finalMatrix] it
    does not read; [None] when [points[pointIndex]] is undefined and the
    read of its [x] throws. *)
Definition positionHandler (this : Control) (polyObject : Polyline.t T)
    : option (Point.t T) :=
  match array_get (Polyline.points polyObject) (pointIndex this) with
  | None => None
  | Some p =>
    let x := Point.x p - Point.x (Polyline.pathOffset polyObject) in
    let y := Point.y p - Point.y (Polyline.pathOffset polyObject) in
    Some (Point.transform (Point.mk x y)
            (TMat2D.multiplyTransformMatrices
               (viewportOf polyObject)
               (Polyline.calcTransformMatrix polyObject)))
  end.

Definition polyActionHandler : TransformActionHandler T :=
  fun poly x y =>
  match currentControlOf poly with
  | None => None
  | Some currentControl =>
    let mouseLocalPosition := getLocalPoint poly origin_center origin_center x y in
    let polygonBaseSize := getSize poly in
    let size := Polyline._getTransformedDimensions poly [] in
    let sizeFactor := Point.divide polygonBaseSize size in
    let shear := shearOf poly in
    let adjustFlip := adjustFlipOf poly in
    let skewedPathOffset := applySkew (Polyline.pathOffset poly) shear in
    let finalPointPosition :=
      removeSkew
        (Point.add
           (Point.multiply (Point.multiply mouseLocalPosition adjustFlip) sizeFactor)
           skewedPathOffset)
        shear in
    match array_set (Polyline.points poly) (pointIndex currentControl) finalPointPosition with
    | None => None
    | Some points => Some (true, Polyline.setDimensions (Polyline.set_points poly points))
    end
  end.

(** [(currentControl.pointIndex > 0 ? currentControl.pointIndex
    : poly.points.length) - 1] *)
Definition anchorIndexOf (poly : Polyline.t T) (currentControl : Control) : Z :=
  ((if (0 <? pointIndex currentControl)%Z
    then pointIndex currentControl
    else Z.of_nat (List.length (Polyline.points poly))) - 1)%Z.

(** The [absolutePoint] of [anchorWrapper]: the vertex at [anchorIndex],
    taken from [pathOffset] and sent through the matrix of the shape. *)
Definition absolutePointOf (poly : Polyline.t T) (anchorIndex : Z) : option (Point.t T) :=
  match array_get (Polyline.points poly) anchorIndex with
  | None => None
  | Some anchor =>
    Some (Point.transform
            (Point.mk (Point.x anchor - Point.x (Polyline.pathOffset poly))
                      (Point.y anchor - Point.y (Polyline.pathOffset poly)))
            (Polyline.calcTransformMatrix poly))
  end.

(** The [newPosition] of [anchorWrapper], computed on the shape the inner
    handler leaves. *)
Definition newPositionOf (poly : Polyline.t T) (anchorIndex : Z) : option (Point.t T) :=
  match array_get (Polyline.points poly) anchorIndex with
  | None => None
  | Some anchor =>
    let polygonBaseSize := getSize poly in
    let shear := shearOf poly in
    let adjustFlip := adjustFlipOf poly in
    Some (Point.multiply
            (Point.divide
               (applySkew
                  (Point.subtract (Point.mk (Point.x anchor) (Point.y anchor))
                                  (Polyline.pathOffset poly))
                  shear)
               polygonBaseSize)
            adjustFlip)
  end.

Definition anchorWrapper (fn : TransformActionHandler T) : TransformActionHandler T :=
  fun poly x y =>
  match currentControlOf poly with
  | None => None
  | Some currentControl =>
    let anchorIndex := anchorIndexOf poly currentControl in
    match absolutePointOf poly anchorIndex with
    | None => None
    | Some absolutePoint =>
      match fn poly x y with
      | None => None
      | Some (actionPerformed, poly) =>
        match newPositionOf poly anchorIndex with
        | None => None
        | Some newPosition =>
          Some (actionPerformed,
                Polyline.setPositionByOrigin poly absolutePoint
                  (origin_number (Point.x newPosition + nhalf))
                  (origin_number (Point.y newPosition + nhalf)))
        end
      end
    end
  end.

(** [actionHandler = PolyControl.anchorWrapper(PolyControl.polyActionHandler)] *)
Definition actionHandler : TransformActionHandler T :=
  anchorWrapper polyActionHandler.

(** The origin fraction as section 4.4 step 4 of the specification words
    it, with [removeSkew]; it is compared below with the one the code
    computes. *)
Definition spec_origin_fraction (poly : Polyline.t T) (anchorIndex : Z)
    : option (Point.t T) :=
  match array_get (Polyline.points poly) anchorIndex with
  | None => None
  | Some anchor =>
    Some (Point.scalarAdd
            (Point.multiply
               (Point.divide
                  (removeSkew (Point.subtract anchor (Polyline.pathOffset poly))
                              (shearOf poly))
                  (getSize poly))
               (adjustFlipOf poly))
            nhalf)
  end.

End Methods.

(** [controls[key] = control] on an object held as a dictionary: the
    binding of a key that is there is replaced where it stands, a new key
    goes last. *)
Fixpoint assign {A : Type} (o : list (string * A)) (key : string) (v : A)
    : list (string * A) :=
  match o with
  | [] => [(key, v)]
  | (k, w) :: rest =>
    if String.eqb k key then (k, v) :: rest else (k, w) :: assign rest key v
  end.

(** The template literal [`p${idx}`]: the letter p, then the decimal digits
    of the index. *)
Definition controlKey (idx : nat) : string :=
  ("p" ++ NilEmpty.string_of_uint (Nat.to_uint idx))%string.

(** [createPolyControls] for a whole number of controls; the [options] go
    to the constructor of [Control] and are no part of what a [PolyControl]
    adds. *)
Definition createPolyControls (numOfControls : Z) : list (string * Control) :=
  fold_left
    (fun controls idx => assign controls (controlKey idx) {| pointIndex := Z.of_nat idx |})
    (seq 0 (Z.to_nat numOfControls))
    [].

End PolyControl.

Unset Implicit Arguments.

(** * Collaborators and shapes for concrete runs *)

Section Samples.
Context {T : Type} `{Number T}.
Local Open Scope num_scope.

(** A stroke projector for shapes with no stroke and no skew: every point
    is its own projection. *)
Definition project_points (points : list (Point.t T)) (options : Polyline.t T)
    (openPath : bool) : list (Projection T) :=
  map (fun p => {| projectedPoint := p |}) points.

(** Transformed dimensions as section 4.4 step 2 describes them with the
    skew ignored: the size under the current scale only. *)
Definition scaled_dimensions (this : Polyline.t T) (options : DimOptions T) : Point.t T :=
  Point.mk (Polyline.width this * Polyline.scaleX this)
           (Polyline.height this * Polyline.scaleY this).

(** A pointer position that is already the local one. *)
Definition pointer_is_local (poly : Polyline.t T) (originX originY : Origin T)
    (x y : T) : Point.t T :=
  Point.mk x y.

(** A shape with the default style (no stroke, scale 1, no skew, no
    rotation, no flip, origin at the left top, no canvas), before its
    geometry is computed. *)
Definition plain_shape (points : list (Point.t T))
    (controls : list (string * Control)) (corner : string) : Polyline.t T :=
  {| Polyline.points := points;
     Polyline.strokeWidth := nzero;
     Polyline.strokeUniform := false;
     Polyline.strokeLineJoin := "miter";
     Polyline.scaleX := none; Polyline.scaleY := none;
     Polyline.skewX := nzero; Polyline.skewY := nzero;
     Polyline.angle := nzero;
     Polyline.flipX := false; Polyline.flipY := false;
     Polyline.originX := origin_left; Polyline.originY := origin_top;
     Polyline.left := nzero; Polyline.top := nzero;
     Polyline.width := nzero; Polyline.height := nzero;
     Polyline.pathOffset := Point.mk nzero nzero;
     Polyline.canvas := None;
     Polyline.controls := controls;
     Polyline.__corner := corner |}.

End Samples.

Definition sample_collaborators {T} `{Number T} : Polyline.Collaborators T := {|
  Polyline.projectStrokeOnPoints := project_points;
  Polyline.Object__getTransformedDimensions := scaled_dimensions
|}.

Definition sample_util {T} `{Number T} : PolyControl.ControlUtil T := {|
  PolyControl.getLocalPoint := pointer_is_local
|}.

(** The controls [createPolyControls(2)] builds. *)
Definition two_controls : list (string * Control) :=
  [("p0"%string, {| pointIndex := 0 |}); ("p1"%string, {| pointIndex := 1 |})].

(** The controls [createPolyControls(4)] builds. *)
Definition four_controls : list (string * Control) :=
  [("p0"%string, {| pointIndex := 0 |}); ("p1"%string, {| pointIndex := 1 |});
   ("p2"%string, {| pointIndex := 2 |}); ("p3"%string, {| pointIndex := 3 |})].

(** The diagonal from (0,0) to (10,10), its second control being dragged. *)
Definition diagonal : Polyline.t R :=
  @Polyline.setDimensions R _ _ sample_collaborators
    (plain_shape [Point.mk 0%R 0%R; Point.mk 10%R 10%R] two_controls "p1").

(** The segment from (-1,-1) to (1,1) under a skew of 45 degrees along x,
    its first control being dragged: the anchor is the vertex of index 1. *)
Definition sheared : Polyline.t R :=
  @Polyline.setDimensions R _ _ sample_collaborators
    (Polyline.Object__set "skewX" (VNumber 45%R)
       (plain_shape [Point.mk (-1)%R (-1)%R; Point.mk 1%R 1%R] two_controls "p0")).

(** The same diagonal on binary64. *)
Definition diagonal64 : Polyline.t float :=
  @Polyline.setDimensions float _ _ sample_collaborators
    (plain_shape [Point.mk 0%float 0%float; Point.mk 10%float 10%float]
       two_controls "p1").

(** The square of side 10 of section 8 on binary64, its third control
    (vertex index 2) being dragged. *)
Definition square64 : Polyline.t float :=
  @Polyline.setDimensions float _ _ sample_collaborators
    (plain_shape [Point.mk 0%float 0%float; Point.mk 10%float 0%float;
                  Point.mk 10%float 10%float; Point.mk 0%float 10%float]
       four_controls "p2").

(** An output side for concrete runs: [toFixed] that keeps the number, a
    number printed as a sharp sign, and a paint that strokes nothing. *)
Definition sample_output {T} : Polyline.Output T := {|
  Polyline.toFixed := fun (number : T) (fractionDigits : Z) => number;
  Polyline.NUM_FRACTION_DIGITS := 2%Z;
  Polyline.numberToString := fun _ => "#"%string;
  Polyline._renderPaintInOrder := fun st => st
|}.

(** The segment from (1,2) to (4,6) on binary64, its geometry computed. *)
Definition segment64 : Polyline.t float :=
  @Polyline.setDimensions float _ _ sample_collaborators
    (plain_shape [Point.mk 1%float 2%float; Point.mk 4%float 6%float]
       two_controls "p0").

(** The shape [this] attached to a canvas. *)
Definition on_canvas {T} (this : Polyline.t T) (canvas : Canvas T) : Polyline.t T :=
  {| Polyline.points := Polyline.points this;
     Polyline.strokeWidth := Polyline.strokeWidth this;
     Polyline.strokeUniform := Polyline.strokeUniform this;
     Polyline.strokeLineJoin := Polyline.strokeLineJoin this;
     Polyline.scaleX := Polyline.scaleX this; Polyline.scaleY := Polyline.scaleY this;
     Polyline.skewX := Polyline.skewX this; Polyline.skewY := Polyline.skewY this;
     Polyline.angle := Polyline.angle this;
     Polyline.flipX := Polyline.flipX this; Polyline.flipY := Polyline.flipY this;
     Polyline.originX := Polyline.originX this; Polyline.originY := Polyline.originY this;
     Polyline.left := Polyline.left this; Polyline.top := Polyline.top this;
     Polyline.width := Polyline.width this; Polyline.height := Polyline.height this;
     Polyline.pathOffset := Polyline.pathOffset this;
     Polyline.canvas := Some canvas;
     Polyline.controls := Polyline.controls this;
     Polyline.__corner := Polyline.__corner this |}.

(** The diagonal on a canvas zoomed twice and panned by (5,7). *)
Definition zoomed : Polyline.t R :=
  on_canvas diagonal
    {| viewportTransform := Some (TMat2D.mk 2%R 0%R 0%R 2%R 5%R 7%R) |}.

(** The segment with a last point read from an empty string: its y is NaN. *)
Definition unparsed64 : Polyline.t float :=
  plain_shape [Point.mk 1%float 2%float; Point.mk 4%float nan] two_controls "p0".

(** One round of the loop of [createPolyControls]. *)
Definition add_control (controls : list (string * Control)) (idx : nat)
    : list (string * Control) :=
  PolyControl.assign controls (PolyControl.controlKey idx)
    {| pointIndex := Z.of_nat idx |}.

(** * What is asked of the collaborators *)

Section Contracts.
Context {T : Type} `{Number T} `{Polyline.Collaborators T}.
Local Open Scope num_scope.

(** Two shapes that differ at most in the geometry the recompute derives
    ([width], [height], [pathOffset]) and in their position ([left],
    [top]). *)
Definition same_inputs (s1 s2 : Polyline.t T) : Prop :=
  Polyline.points s1 = Polyline.points s2
  /\ Polyline.strokeWidth s1 = Polyline.strokeWidth s2
  /\ Polyline.strokeUniform s1 = Polyline.strokeUniform s2
  /\ Polyline.strokeLineJoin s1 = Polyline.strokeLineJoin s2
  /\ Polyline.scaleX s1 = Polyline.scaleX s2
  /\ Polyline.scaleY s1 = Polyline.scaleY s2
  /\ Polyline.skewX s1 = Polyline.skewX s2
  /\ Polyline.skewY s1 = Polyline.skewY s2
  /\ Polyline.angle s1 = Polyline.angle s2
  /\ Polyline.flipX s1 = Polyline.flipX s2
  /\ Polyline.flipY s1 = Polyline.flipY s2
  /\ Polyline.originX s1 = Polyline.originX s2
  /\ Polyline.originY s1 = Polyline.originY s2
  /\ Polyline.canvas s1 = Polyline.canvas s2
  /\ Polyline.controls s1 = Polyline.controls s2
  /\ Polyline.__corner s1 = Polyline.__corner s2.

(** The stroke projector reads the points and the style of the shape it is
    given (section 6: points, stroke width, line join, scale awareness),
    not the geometry derived from them. *)
Definition projector_reads_inputs : Prop :=
  forall s1 s2 : Polyline.t T,
    same_inputs s1 s2 ->
    Polyline.projectStrokeOnPoints (Polyline.points s1) s1 true
    = Polyline.projectStrokeOnPoints (Polyline.points s2) s2 true.

(** The condition under which [_set] recomputes, on the key and on the
    shape it is called on. *)
Definition recomputes (key : string) (this : Polyline.t T) : Prop :=
  (key = "skewX" \/ key = "skewY"
   \/ ((key = "scaleX" \/ key = "scaleY")
       /\ Polyline.strokeUniform this = true
       /\ Polyline.strokeLineJoin this <> "round"))%string.

(** The condition under which [commonRender] draws nothing: no point, or a
    last point whose y is NaN. *)
Definition render_skipped (this : Polyline.t T) : Prop :=
  Polyline.points this = []
  \/ exists lastPoint,
       array_get (Polyline.points this)
                 (Z.of_nat (List.length (Polyline.points this)) - 1) = Some lastPoint
       /\ isNaN (Point.y lastPoint) = true.

(** The path [commonRender] draws: [beginPath], [moveTo] the first point,
    then [lineTo] every point in order, each taken from [pathOffset]. *)
Definition render_path (this : Polyline.t T) (first : Point.t T)
    : list (Polyline.CanvasCommand T) :=
  let x := Point.x (Polyline.pathOffset this) in
  let y := Point.y (Polyline.pathOffset this) in
  Polyline.beginPath
  :: Polyline.moveTo (Point.x first - x) (Point.y first - y)
  :: map (fun point => Polyline.lineTo (Point.x point - x) (Point.y point - y))
         (Polyline.points this).

(** The scale of the shape with its flips, as its matrix applies it. *)
Definition signedScaleOf (this : Polyline.t T) : Point.t T :=
  Point.mk (if Polyline.flipX this then - Polyline.scaleX this else Polyline.scaleX this)
           (if Polyline.flipY this then - Polyline.scaleY this else Polyline.scaleY this).

(** The pieces [_toSVG] pushes for the target of one path command: those of
    a [lineTo], nothing for the other commands. *)
Definition svg_of_command `{Polyline.Output T} (command : Polyline.CanvasCommand T)
    : list (Polyline.SvgPiece T) :=
  match command with
  | Polyline.lineTo x y =>
    [Polyline.piece_number (Polyline.toFixed x Polyline.NUM_FRACTION_DIGITS);
     Polyline.piece_string ",";
     Polyline.piece_number (Polyline.toFixed y Polyline.NUM_FRACTION_DIGITS);
     Polyline.piece_string " "]
  | _ => []
  end.


End Contracts.

(** * Shear *)

Section Shear.
Local Open Scope R_scope.

(** C4 (exact arithmetic): for every point [p] and every shear vector [s],
    [removeSkew(applySkew(p, s), s)] is [p]; no shear value is excluded. *)
Theorem removeSkew_applySkew :
  forall p s : Point.t R,
    PolyControl.removeSkew (PolyControl.applySkew p s) s = p.
Proof.
  intros [px py] [sx sy].
  unfold PolyControl.removeSkew, PolyControl.applySkew; cbn.
  f_equal; ring.
Qed.

(** X1: the other way round holds as well, [applySkew] after [removeSkew]
    returns the point: the two shears are inverse of each other, for every
    shear vector. *)
Lemma applySkew_removeSkew :
  forall p s : Point.t R,
    PolyControl.applySkew (PolyControl.removeSkew p s) s = p.
Proof.
  intros [px py] [sx sy].
  unfold PolyControl.removeSkew, PolyControl.applySkew; cbn.
  f_equal; ring.
Qed.

(** [applySkew] is the product of the two skew matrices of the transform,
    y first and then x. *)
Lemma applySkew_as_matrix :
  forall p s : Point.t R,
    PolyControl.applySkew p s =
    Point.transform p
      (TMat2D.multiplyTransformMatrices
         (TMat2D.mk 1 0 (Point.x s) 1 0 0)
         (TMat2D.mk 1 (Point.y s) 0 1 0 0)).
Proof.
  intros [px py] [sx sy].
  unfold PolyControl.applySkew, Point.transform, TMat2D.multiplyTransformMatrices; cbn.
  f_equal; ring.
Qed.

End Shear.

(** C4 (binary64): on the floats of JavaScript the round trip loses the
    point.  With [p = (2^53, 1)] and [s = (0, 1)], [applySkew] rounds
    [1 + 2^53] to [2^53] and [removeSkew] answers [(2^53, 0)]: y is off by
    1.  With the ordinary point [p = (1000, 0.7)] under the steep shear [s =
    (0, 2^20)] (a skew just short of 90 degrees), y comes back off by more
    than 4e-8.  Both errors exceed 1e-9. *)
Lemma removeSkew_applySkew_binary64 :
  let tolerance := 0x1.12e0be826d695p-30%float in
  let roundTrip (p s : Point.t float) :=
    PolyControl.removeSkew (PolyControl.applySkew p s) s in
  let p1 := Point.mk 9007199254740992%float 1%float in
  let s1 := Point.mk 0%float 1%float in
  let p2 := Point.mk 1000%float 0x1.6666666666666p-1%float in
  let s2 := Point.mk 0%float 1048576%float in
  roundTrip p1 s1 = Point.mk 9007199254740992%float 0%float
  /\ (tolerance <? PrimFloat.abs (Point.y (roundTrip p1 s1) - Point.y p1))%float = true
  /\ roundTrip p2 s2 = Point.mk 1000%float 0x1.666668p-1%float
  /\ (tolerance <? PrimFloat.abs (Point.y (roundTrip p2 s2) - Point.y p2))%float = true.
Proof.
  vm_compute. repeat split; reflexivity.
Qed.

(** * The recompute *)

Section Recompute.
Context {T : Type} `{Number T} `{MathObject T} `{Polyline.Collaborators T}.
Local Open Scope num_scope.

(** The recompute leaves the points and every style and transform field as
    they are: it writes [width], [height], [left], [top] and [pathOffset]
    only. *)
Lemma _setPositionDimensions_frame :
  forall (this : Polyline.t T) (options : PositionOptions T),
    let this' := Polyline._setPositionDimensions this options in
    Polyline.points this' = Polyline.points this
    /\ Polyline.strokeWidth this' = Polyline.strokeWidth this
    /\ Polyline.strokeUniform this' = Polyline.strokeUniform this
    /\ Polyline.strokeLineJoin this' = Polyline.strokeLineJoin this
    /\ Polyline.scaleX this' = Polyline.scaleX this
    /\ Polyline.scaleY this' = Polyline.scaleY this
    /\ Polyline.skewX this' = Polyline.skewX this
    /\ Polyline.skewY this' = Polyline.skewY this
    /\ Polyline.angle this' = Polyline.angle this
    /\ Polyline.flipX this' = Polyline.flipX this
    /\ Polyline.flipY this' = Polyline.flipY this
    /\ Polyline.originX this' = Polyline.originX this
    /\ Polyline.originY this' = Polyline.originY this
    /\ Polyline.canvas this' = Polyline.canvas this
    /\ Polyline.controls this' = Polyline.controls this
    /\ Polyline.__corner this' = Polyline.__corner this.
Proof.
  intros this [[l|] [t0|] svg]; cbn; repeat split; reflexivity.
Qed.

(** C7: after the recompute, with [offsetX = bbox.left + bbox.width / 2] and
    [offsetY = bbox.top + bbox.height / 2], [pathOffset.x] is
    [offsetX - offsetY * tan(skewX)] and [pathOffset.y] is
    [offsetY - pathOffset.x * tan(skewY)], the angles being in degrees: the
    x-then-y unshear of the center of the box.  It holds in any arithmetic. *)
Theorem _setPositionDimensions_pathOffset :
  forall (this : Polyline.t T) (options : PositionOptions T),
    let bbox := Polyline._calcDimensions this in
    let offsetX := BBox.left bbox + BBox.width bbox / ntwo in
    let offsetY := BBox.top bbox + BBox.height bbox / ntwo in
    let this' := Polyline._setPositionDimensions this options in
    Point.x (Polyline.pathOffset this')
      = offsetX - offsetY * Math_tan (degreesToRadians (Polyline.skewX this))
    /\ Point.y (Polyline.pathOffset this')
      = offsetY - Point.x (Polyline.pathOffset this')
                  * Math_tan (degreesToRadians (Polyline.skewY this))
    /\ Polyline.pathOffset this'
      = PolyControl.removeSkew (Point.mk offsetX offsetY) (PolyControl.shearOf this).
Proof.
  intros this [[l|] [t0|] svg]; cbn; repeat split; reflexivity.
Qed.

Lemma _setPositionDimensions_same_inputs :
  forall (this : Polyline.t T) (options : PositionOptions T),
    same_inputs (Polyline._setPositionDimensions this options) this.
Proof.
  intros this options.
  pose proof (_setPositionDimensions_frame this options) as F.
  cbv zeta in F. unfold same_inputs. exact F.
Qed.

Lemma _calcDimensions_same_inputs :
  projector_reads_inputs ->
  forall s1 s2 : Polyline.t T,
    same_inputs s1 s2 ->
    Polyline._calcDimensions s1 = Polyline._calcDimensions s2.
Proof.
  intros Hproj s1 s2 Hsame.
  unfold Polyline._calcDimensions, Polyline._projectStrokeOnPoints.
  rewrite (Hproj s1 s2 Hsame). reflexivity.
Qed.

(** The derived geometry is a function of the bounding box and of the
    style alone. *)
Lemma _setPositionDimensions_derived :
  forall (s1 s2 : Polyline.t T) (o1 o2 : PositionOptions T),
    same_inputs s1 s2 ->
    Polyline._calcDimensions s1 = Polyline._calcDimensions s2 ->
    let r1 := Polyline._setPositionDimensions s1 o1 in
    let r2 := Polyline._setPositionDimensions s2 o2 in
    Polyline.width r1 = Polyline.width r2
    /\ Polyline.height r1 = Polyline.height r2
    /\ Polyline.pathOffset r1 = Polyline.pathOffset r2.
Proof.
  intros s1 s2 [[l1|] [t1|] svg1] [[l2|] [t2|] svg2] Hsame Hbox; cbn;
    destruct Hsame as (_ & Hsw & Hsu & _ & Hsx & Hsy & Hkx & Hky & _);
    rewrite Hbox, Hsw, Hsu, Hsx, Hsy, Hkx, Hky; repeat split; reflexivity.
Qed.

(** C8: the recompute is idempotent on the derived geometry.  Calling
    [_setPositionDimensions] a second time, with no change to the points or
    to a style or transform field in between, leaves [width], [height] and
    [pathOffset] identical to what the first call computed, whatever the
    options of the two calls and in any arithmetic, for a stroke projector
    that reads the points and the style only. *)
Theorem _setPositionDimensions_idempotent :
  projector_reads_inputs ->
  forall (this : Polyline.t T) (options options' : PositionOptions T),
    let once := Polyline._setPositionDimensions this options in
    let twice := Polyline._setPositionDimensions once options' in
    Polyline.width twice = Polyline.width once
    /\ Polyline.height twice = Polyline.height once
    /\ Polyline.pathOffset twice = Polyline.pathOffset once.
Proof.
  intros Hproj this options options' once twice.
  subst once twice.
  apply _setPositionDimensions_derived.
  - apply _setPositionDimensions_same_inputs.
  - apply _calcDimensions_same_inputs; [ exact Hproj | ].
    apply _setPositionDimensions_same_inputs.
Qed.

End Recompute.

Section RecomputeExact.
Context `{Polyline.Collaborators R}.
Local Open Scope R_scope.

(** C6: after the recompute, [width] is the width of the bounding box of
    the stroke-projected points minus [strokeWidth / (strokeUniform ? scaleX
    : 1)], and [height] is its height minus [strokeWidth / (strokeUniform ?
    scaleY : 1)].  Nothing clamps the result: it is negative as soon as the
    correction exceeds the extent of the box. *)
Theorem _setPositionDimensions_size :
  forall (this : Polyline.t R) (options : PositionOptions R),
    let bbox := Polyline._calcDimensions this in
    let correctionX :=
      Polyline.strokeWidth this
      / (if Polyline.strokeUniform this then Polyline.scaleX this else 1) in
    let correctionY :=
      Polyline.strokeWidth this
      / (if Polyline.strokeUniform this then Polyline.scaleY this else 1) in
    let this' := Polyline._setPositionDimensions this options in
    Polyline.width this' = BBox.width bbox - correctionX
    /\ Polyline.height this' = BBox.height bbox - correctionY
    /\ (BBox.width bbox < correctionX -> Polyline.width this' < 0)
    /\ (BBox.height bbox < correctionY -> Polyline.height this' < 0).
Proof.
  intros this options bbox correctionX correctionY this'.
  assert (Hw : Polyline.width this' = BBox.width bbox - correctionX).
  { subst this' correctionX bbox.
    destruct options as [[l|] [t0|] svg]; cbn;
      destruct (Polyline.strokeUniform this); cbn;
      rewrite ?Rplus_0_l; reflexivity. }
  assert (Hh : Polyline.height this' = BBox.height bbox - correctionY).
  { subst this' correctionY bbox.
    destruct options as [[l|] [t0|] svg]; cbn;
      destruct (Polyline.strokeUniform this); cbn;
      rewrite ?Rplus_0_l; reflexivity. }
  repeat split; try assumption; intros Hlt; lra.
Qed.

(** C9: when the stroke projector hands back no point, the bounding box is
    computed all the same, as the one of the single point (0,0): left 0,
    top 0, width 0 and height 0. *)
Theorem _calcDimensions_no_point :
  forall this : Polyline.t R,
    map (fun elem => projectedPoint elem) (Polyline._projectStrokeOnPoints this) = [] ->
    Polyline._calcDimensions this
      = Polyline.makeBoundingBoxFromPoints [Point.mk 0 0]
    /\ Polyline._calcDimensions this = BBox.mk 0 0 0 0.
Proof.
  intros this Hempty.
  unfold Polyline._calcDimensions. rewrite Hempty. cbn.
  split; [ reflexivity | ].
  unfold Polyline.bounding_box_of; cbn.
  f_equal; ring.
Qed.

End RecomputeExact.

(** C9 at a shape with no point and the sample collaborators. *)
Lemma _calcDimensions_no_point_witness :
  map (fun elem => projectedPoint elem)
      (@Polyline._projectStrokeOnPoints R sample_collaborators
         (plain_shape [] [] "")) = []
  /\ @Polyline._calcDimensions R _ sample_collaborators (plain_shape [] [] "")
     = Polyline.makeBoundingBoxFromPoints [Point.mk 0%R 0%R]
  /\ @Polyline._calcDimensions R _ sample_collaborators (plain_shape [] [] "")
     = BBox.mk 0%R 0%R 0%R 0%R.
Proof.
  split; [ reflexivity | ].
  apply (@_calcDimensions_no_point sample_collaborators (plain_shape [] [] "")).
  reflexivity.
Defined.

(** C8 at a two-point shape, for the sample projector. *)
Lemma _setPositionDimensions_idempotent_witness :
  @projector_reads_inputs R sample_collaborators
  /\ (let this := plain_shape [Point.mk 0%R 0%R; Point.mk 10%R 10%R] two_controls "p1" in
      let once := @Polyline._setPositionDimensions R _ _ sample_collaborators
                    this Polyline.no_options in
      let twice := @Polyline._setPositionDimensions R _ _ sample_collaborators
                     once Polyline.no_options in
      Polyline.width twice = Polyline.width once
      /\ Polyline.height twice = Polyline.height once
      /\ Polyline.pathOffset twice = Polyline.pathOffset once).
Proof.
  assert (Hproj : @projector_reads_inputs R sample_collaborators).
  { intros s1 s2 Hsame. cbn. unfold project_points.
    destruct Hsame as [Hpoints _]. rewrite Hpoints. reflexivity. }
  split; [ exact Hproj | ].
  exact (@_setPositionDimensions_idempotent R _ _ sample_collaborators Hproj
           (plain_shape [Point.mk 0%R 0%R; Point.mk 10%R 10%R] two_controls "p1")
           Polyline.no_options Polyline.no_options).
Defined.

(** The scenario of section 8, run on binary64 with the sample projector:
    the square of side 10 with no stroke gets width 10, height 10 and path
    offset (5,5). *)
Example square_geometry :
  let square :=
    plain_shape [Point.mk 0%float 0%float; Point.mk 10%float 0%float;
                 Point.mk 10%float 10%float; Point.mk 0%float 10%float] [] "" in
  let this := @Polyline.setDimensions float _ _ sample_collaborators square in
  Polyline.width this = 10%float
  /\ Polyline.height this = 10%float
  /\ Polyline.pathOffset this = Point.mk 5%float 5%float.
Proof.
  vm_compute. repeat split; reflexivity.
Qed.

(** Nothing clamps the width: a single point under a stroke of width 2 that
    the projector does not widen gets width -2. *)
Example negative_width :
  let dot :=
    Polyline.Object__set "strokeWidth" (VNumber 2%float)
      (plain_shape [Point.mk 3%float 4%float] [] "") in
  Polyline.width (@Polyline.setDimensions float _ _ sample_collaborators dot)
  = (-2)%float.
Proof.
  vm_compute. reflexivity.
Qed.

(** * The setter *)

Section Setter.
Context {T : Type} `{Number T} `{MathObject T} `{Polyline.Collaborators T}.

(** Assigning a scale or a skew leaves the stroke style alone. *)
Lemma Object__set_stroke_style :
  forall (key : string) (value : Value T) (this : Polyline.t T),
    (key = "scaleX" \/ key = "scaleY" \/ key = "skewX" \/ key = "skewY")%string ->
    Polyline.strokeUniform (Polyline.Object__set key value this)
      = Polyline.strokeUniform this
    /\ Polyline.strokeLineJoin (Polyline.Object__set key value this)
      = Polyline.strokeLineJoin this.
Proof.
  intros key value this Hkey.
  destruct Hkey as [-> | [-> | [-> | ->]]]; destruct value; split; reflexivity.
Qed.

Lemma _set_when_recomputes :
  forall (key : string) (value : Value T) (this : Polyline.t T),
    recomputes key this ->
    Polyline._set key value this
    = (Polyline._setPositionDimensions (Polyline.Object__set key value this)
         Polyline.no_options,
       [call_setPositionDimensions]).
Proof.
  intros key value this Hrec. unfold Polyline._set.
  destruct Hrec as [-> | [-> | [Hscale [Hu Hj]]]].
  - destruct value; cbn; reflexivity.
  - destruct value; cbn; reflexivity.
  - destruct (Object__set_stroke_style key value this) as [Eu Ej].
    { destruct Hscale as [-> | ->]; auto. }
    rewrite Eu, Ej, Hu.
    apply String.eqb_neq in Hj. rewrite Hj.
    destruct Hscale as [-> | ->]; cbn; reflexivity.
Qed.

Lemma _set_when_not_recomputes :
  forall (key : string) (value : Value T) (this : Polyline.t T),
    ~ recomputes key this ->
    Polyline._set key value this = (Polyline.Object__set key value this, []).
Proof.
  intros key value this Hnot. unfold Polyline._set.
  destruct (String.eqb_spec key "skewX") as [-> | HkX].
  { exfalso. apply Hnot. left. reflexivity. }
  destruct (String.eqb_spec key "skewY") as [-> | HkY].
  { exfalso. apply Hnot. right. left. reflexivity. }
  destruct (String.eqb_spec key "scaleX") as [EsX | HsX];
    [ | destruct (String.eqb_spec key "scaleY") as [EsY | HsY] ].
  - destruct (Object__set_stroke_style key value this) as [Eu Ej]; [ auto | ].
    rewrite Eu, Ej.
    destruct (Polyline.strokeUniform this) eqn:Hu; cbn; [ | reflexivity ].
    destruct (String.eqb_spec (Polyline.strokeLineJoin this) "round") as [Hj | Hj];
      cbn; [ reflexivity | ].
    exfalso. apply Hnot. right. right. auto.
  - destruct (Object__set_stroke_style key value this) as [Eu Ej]; [ auto | ].
    rewrite Eu, Ej.
    destruct (Polyline.strokeUniform this) eqn:Hu; cbn; [ | reflexivity ].
    destruct (String.eqb_spec (Polyline.strokeLineJoin this) "round") as [Hj | Hj];
      cbn; [ reflexivity | ].
    exfalso. apply Hnot. right. right. auto.
  - cbn. reflexivity.
Qed.

Lemma recomputes_dec :
  forall (key : string) (this : Polyline.t T),
    recomputes key this \/ ~ recomputes key this.
Proof.
  intros key this. unfold recomputes.
  destruct (String.eqb_spec key "skewX"); [ auto | ].
  destruct (String.eqb_spec key "skewY"); [ auto | ].
  destruct (Polyline.strokeUniform this);
    [ | right; intros [? | [? | [_ [? _]]]]; congruence ].
  destruct (String.eqb_spec (Polyline.strokeLineJoin this) "round");
    [ right; intros [? | [? | [_ [_ ?]]]]; congruence | ].
  destruct (String.eqb_spec key "scaleX"); [ auto 6 | ].
  destruct (String.eqb_spec key "scaleY"); [ auto 6 | ].
  right; intros [? | [? | [[? | ?] _]]]; congruence.
Qed.

(** C3: setting one property through [_set] calls [_setPositionDimensions]
    (once, on the shape with the property assigned) exactly when the key is
    [skewX] or [skewY], or the key is [scaleX] or [scaleY] while
    [strokeUniform] is true and [strokeLineJoin] is not [round]; in every
    other case no call is made and the shape is the one the assignment
    leaves.  In particular, with [strokeLineJoin = round] and [strokeUniform
    = true], setting [scaleX] makes no call. *)
Theorem _set_recomputes :
  forall (key : string) (value : Value T) (this : Polyline.t T),
    (recomputes key this ->
       Polyline._set key value this
       = (Polyline._setPositionDimensions (Polyline.Object__set key value this)
            Polyline.no_options,
          [call_setPositionDimensions]))
    /\ (~ recomputes key this ->
       Polyline._set key value this = (Polyline.Object__set key value this, []))
    /\ (snd (Polyline._set key value this) = [call_setPositionDimensions]
        <-> recomputes key this)
    /\ (Polyline.strokeLineJoin this = "round"%string ->
        Polyline.strokeUniform this = true ->
        snd (Polyline._set "scaleX" value this) = []).
Proof.
  intros key value this.
  repeat split.
  - apply _set_when_recomputes.
  - apply _set_when_not_recomputes.
  - intros Hsnd. destruct (recomputes_dec key this) as [Hrec | Hnot]; [ exact Hrec | ].
    rewrite (_set_when_not_recomputes key value this Hnot) in Hsnd. discriminate.
  - intros Hrec. rewrite (_set_when_recomputes key value this Hrec). reflexivity.
  - intros Hround Huniform.
    rewrite _set_when_not_recomputes; [ reflexivity | ].
    intros [Hk | [Hk | [_ [_ Hj]]]]; try discriminate.
    apply Hj. exact Hround.
Qed.

End Setter.

(** * Rendering *)

Section Render.
Context {T : Type} `{Number T}.
Local Open Scope num_scope.

(** With a point in the array, [points[len - 1]] is its last element. *)
Lemma array_get_last :
  forall (A : Type) (a : list A) (d : A),
    a <> [] ->
    array_get a (Z.of_nat (List.length a) - 1) = Some (List.last a d).
Proof.
  intros A a d Hne. unfold array_get.
  destruct a as [| h rest]; [ congruence | ].
  assert (Hlen : (Z.of_nat (List.length (h :: rest)) - 1
                  = Z.of_nat (List.length rest))%Z) by (cbn [List.length]; lia).
  rewrite Hlen.
  destruct (Z.ltb_spec (Z.of_nat (List.length rest)) 0) as [Hneg | _]; [ lia | ].
  rewrite Nat2Z.id. clear Hlen Hne.
  revert h. induction rest as [| h' rest IH]; intros h.
  - reflexivity.
  - cbn [List.length nth_error]. rewrite IH. reflexivity.
Qed.

(** C5, as the code has it: [commonRender] draws nothing and returns false
    exactly when the points list is empty or the y of the last point is NaN
    (an infinite y is drawn); on every other input it issues [beginPath],
    [moveTo] and one [lineTo] per point and returns true.  The shape (its
    points, width, height and path offset with it) is the same after the
    call in both cases. *)
Theorem commonRender_guard :
  forall st : Polyline.RenderState T,
    let this := Polyline.rs_this st in
    (fst (Polyline.commonRender st) = false <-> render_skipped this)
    /\ (render_skipped this -> Polyline.commonRender st = (false, st))
    /\ (~ render_skipped this ->
        exists first,
          array_get (Polyline.points this) 0 = Some first
          /\ Polyline.commonRender st
             = (true, {| Polyline.rs_this := this;
                         Polyline.rs_ctx := Polyline.rs_ctx st ++ render_path this first |}))
    /\ Polyline.rs_this (snd (Polyline.commonRender st)) = this.
Proof.
  intros [this ctx]. cbn [Polyline.rs_this].
  unfold Polyline.commonRender, render_skipped, render_path.
  cbn [Polyline.rs_this Polyline.rs_ctx].
  destruct (Polyline.points this) as [| first rest] eqn:Hpoints.
  - cbn. repeat split; auto.
    intros Hnot. exfalso. apply Hnot. left. reflexivity.
  - assert (Hlast := array_get_last _ (first :: rest) first ltac:(discriminate)).
    destruct (isNaN (Point.y (List.last (first :: rest) first))) eqn:Hnan.
    + cbn [fst snd Polyline.rs_this]. repeat split; auto.
      * intros _. right. eexists. split; [ exact Hlast | exact Hnan ].
      * intros Hnot. exfalso. apply Hnot. right.
        eexists. split; [ exact Hlast | exact Hnan ].
    + cbn [fst snd Polyline.rs_this].
      assert (Hnot : ~ (first :: rest = []
                        \/ exists lastPoint,
                             array_get (first :: rest)
                               (Z.of_nat (List.length (first :: rest)) - 1)
                             = Some lastPoint
                             /\ isNaN (Point.y lastPoint) = true)).
      { intros [Hnil | [lastPoint [Hget Hy]]]; [ discriminate | ].
        rewrite Hlast in Hget.
        assert (Heq : List.last (first :: rest) first = lastPoint) by congruence.
        rewrite <- Heq, Hnan in Hy. discriminate. }
      repeat split; auto.
      * intros Hfalse. discriminate.
      * intros Hskip. contradiction.
      * intros Hskip. contradiction.
      * intros _. exists first. split; [ reflexivity | ].
        rewrite <- !app_assoc. reflexivity.
Qed.

End Render.

(** C5 on binary64: a last point whose y is +Infinity is not finite, and
    yet [commonRender] returns true and draws the path. *)
Lemma commonRender_draws_infinite_y :
  let this := plain_shape [Point.mk 0%float infinity] [] "" in
  let st := {| Polyline.rs_this := this; Polyline.rs_ctx := [] |} in
  option_map (fun p => PrimFloat.is_finite (Point.y p))
             (array_get (Polyline.points this)
                        (Z.of_nat (List.length (Polyline.points this)) - 1))
  = Some false
  /\ fst (Polyline.commonRender st) = true
  /\ Polyline.rs_ctx (snd (Polyline.commonRender st))
     = [Polyline.beginPath; Polyline.moveTo 0%float infinity;
        Polyline.lineTo 0%float infinity].
Proof.
  vm_compute. repeat split; reflexivity.
Qed.

(** A y that is NaN is skipped, as the comment in the code says. *)
Example commonRender_skips_nan_y :
  let this := plain_shape [Point.mk 0%float 0%float; Point.mk 1%float nan] [] "" in
  let st := {| Polyline.rs_this := this; Polyline.rs_ctx := [] |} in
  Polyline.commonRender st = (false, st).
Proof.
  vm_compute. reflexivity.
Qed.

(** * The position of a control *)

Section Position.
Context `{Polyline.Collaborators R}.
Local Open Scope R_scope.

Lemma multiplyTransformMatrices_iMatrix :
  forall m : TMat2D.t R,
    TMat2D.multiplyTransformMatrices TMat2D.iMatrix m = m.
Proof.
  intros [a b c d e f].
  unfold TMat2D.multiplyTransformMatrices, TMat2D.iMatrix; cbn.
  f_equal; ring.
Qed.

(** C10: for a shape attached to no canvas, [positionHandler] returns the
    point [points[pointIndex] - pathOffset] sent through the matrix of the
    shape alone: the viewport matrix falls back to the identity and the call
    does not fail. *)
Theorem positionHandler_without_canvas :
  forall (this : Control) (polyObject : Polyline.t R) (p : Point.t R),
    Polyline.canvas polyObject = None ->
    array_get (Polyline.points polyObject) (pointIndex this) = Some p ->
    PolyControl.positionHandler this polyObject
    = Some (Point.transform
              (Point.subtract p (Polyline.pathOffset polyObject))
              (Polyline.calcTransformMatrix polyObject)).
Proof.
  intros this polyObject p Hcanvas Hp.
  unfold PolyControl.positionHandler, PolyControl.viewportOf.
  rewrite Hp, Hcanvas.
  rewrite multiplyTransformMatrices_iMatrix.
  reflexivity.
Qed.

End Position.

(** C10 at the second control of a two-point shape with no canvas. *)
Lemma positionHandler_without_canvas_witness :
  let polyObject :=
    @Polyline.setDimensions R _ _ sample_collaborators
      (plain_shape [Point.mk 0%R 0%R; Point.mk 10%R 10%R] two_controls "p1") in
  let this := {| pointIndex := 1 |} in
  Polyline.canvas polyObject = None
  /\ array_get (Polyline.points polyObject) (pointIndex this) = Some (Point.mk 10%R 10%R)
  /\ @PolyControl.positionHandler R _ _ sample_collaborators this polyObject
     = Some (Point.transform
               (Point.subtract (Point.mk 10%R 10%R) (Polyline.pathOffset polyObject))
               (@Polyline.calcTransformMatrix R _ _ sample_collaborators polyObject)).
Proof.
  cbv zeta.
  split; [ reflexivity | ].
  split; [ reflexivity | ].
  apply (@positionHandler_without_canvas sample_collaborators); reflexivity.
Defined.

(** * The anchor *)

Section AnchorFraction.
Context {T : Type} `{Number T} `{MathObject T}
  `{Polyline.Collaborators T} `{PolyControl.ControlUtil T}.
Local Open Scope num_scope.

(** What [anchorWrapper] does when none of its reads is undefined: it runs
    the inner handler and repositions the shape that handler leaves. *)
Lemma anchorWrapper_runs :
  forall (fn : PolyControl.TransformActionHandler T) (poly poly1 : Polyline.t T)
         (x y : T) (currentControl : Control) (absolutePoint newPosition : Point.t T)
         (actionPerformed : bool),
    PolyControl.currentControlOf poly = Some currentControl ->
    PolyControl.absolutePointOf poly (PolyControl.anchorIndexOf poly currentControl)
      = Some absolutePoint ->
    fn poly x y = Some (actionPerformed, poly1) ->
    PolyControl.newPositionOf poly1 (PolyControl.anchorIndexOf poly currentControl)
      = Some newPosition ->
    PolyControl.anchorWrapper fn poly x y
    = Some (actionPerformed,
            Polyline.setPositionByOrigin poly1 absolutePoint
              (origin_number (Point.x newPosition + nhalf))
              (origin_number (Point.y newPosition + nhalf))).
Proof.
  intros fn poly poly1 x y currentControl absolutePoint newPosition actionPerformed
    Hcontrol Habsolute Hfn Hnew.
  unfold PolyControl.anchorWrapper.
  rewrite Hcontrol, Habsolute, Hfn, Hnew.
  reflexivity.
Qed.

(** C2, as the code has it: once the inner handler has run and left the
    shape [poly1], [anchorWrapper] repositions [poly1] by
    [setPositionByOrigin] at the origin fraction obtained from
    [points[anchorIndex] - pathOffset] by [applySkew] (not [removeSkew])
    with the shear [(tan(skewX), tan(skewY))], divided componentwise by
    [(width, height)], multiplied componentwise by [(flipX ? -1 : 1, flipY ?
    -1 : 1)], plus 0.5 in each component, all read on [poly1]. *)
Theorem anchorWrapper_origin_fraction :
  forall (fn : PolyControl.TransformActionHandler T) (poly poly1 : Polyline.t T)
         (x y : T) (currentControl : Control) (absolutePoint anchor : Point.t T)
         (actionPerformed : bool),
    PolyControl.currentControlOf poly = Some currentControl ->
    PolyControl.absolutePointOf poly (PolyControl.anchorIndexOf poly currentControl)
      = Some absolutePoint ->
    fn poly x y = Some (actionPerformed, poly1) ->
    array_get (Polyline.points poly1) (PolyControl.anchorIndexOf poly currentControl)
      = Some anchor ->
    let shear :=
      Point.mk (Math_tan (degreesToRadians (Polyline.skewX poly1)))
               (Math_tan (degreesToRadians (Polyline.skewY poly1))) in
    let flipAdjust :=
      Point.mk (if Polyline.flipX poly1 then - none else none)
               (if Polyline.flipY poly1 then - none else none) in
    let fraction :=
      Point.scalarAdd
        (Point.multiply
           (Point.divide
              (PolyControl.applySkew
                 (Point.subtract anchor (Polyline.pathOffset poly1)) shear)
              (Point.mk (Polyline.width poly1) (Polyline.height poly1)))
           flipAdjust)
        nhalf in
    PolyControl.anchorWrapper fn poly x y
    = Some (actionPerformed,
            Polyline.setPositionByOrigin poly1 absolutePoint
              (origin_number (Point.x fraction))
              (origin_number (Point.y fraction))).
Proof.
  intros fn poly poly1 x y currentControl absolutePoint anchor actionPerformed
    Hcontrol Habsolute Hfn Hanchor shear flipAdjust fraction.
  subst shear flipAdjust fraction.
  rewrite (anchorWrapper_runs fn poly poly1 x y currentControl absolutePoint
             (Point.multiply
                (Point.divide
                   (PolyControl.applySkew
                      (Point.subtract anchor (Polyline.pathOffset poly1))
                      (PolyControl.shearOf poly1))
                   (PolyControl.getSize poly1))
                (PolyControl.adjustFlipOf poly1))
             actionPerformed Hcontrol Habsolute Hfn).
  - reflexivity.
  - unfold PolyControl.newPositionOf. rewrite Hanchor. reflexivity.
Qed.

End AnchorFraction.

Section ArrayFacts.
Context {A : Type}.

Lemma replace_nth_length :
  forall (a : list A) (n : nat) (v : A),
    List.length (replace_nth a n v) = List.length a.
Proof.
  induction a as [| h rest IH]; intros [| n] v; cbn; auto.
Qed.

Lemma array_get_in_range :
  forall (a : list A) (i : Z),
    (0 <= i < Z.of_nat (List.length a))%Z ->
    exists v, array_get a i = Some v.
Proof.
  intros a i Hi. unfold array_get.
  destruct (Z.ltb_spec i 0) as [Hneg | _]; [ lia | ].
  destruct (nth_error a (Z.to_nat i)) as [v |] eqn:Hnth.
  - exists v. reflexivity.
  - apply nth_error_None in Hnth. lia.
Qed.

Lemma array_set_in_range :
  forall (a : list A) (i : Z) (v : A),
    (0 <= i < Z.of_nat (List.length a))%Z ->
    array_set a i v = Some (replace_nth a (Z.to_nat i) v).
Proof.
  intros a i v Hi. unfold array_set.
  destruct (Z.ltb_spec i 0) as [Hneg | _]; [ lia | ].
  destruct (Z.ltb_spec i (Z.of_nat (List.length a))) as [_ | Hge]; [ | lia ].
  reflexivity.
Qed.

End ArrayFacts.

Section Anchor.
Context `{Polyline.Collaborators R} `{PolyControl.ControlUtil R}.
Local Open Scope R_scope.




(** [setPositionByOrigin] writes [left] and [top] only. *)
Lemma setPositionByOrigin_frame :
  forall (s : Polyline.t R) (pos : Point.t R) (originX originY : Origin R),
    let s' := Polyline.setPositionByOrigin s pos originX originY in
    Polyline.points s' = Polyline.points s
    /\ Polyline.pathOffset s' = Polyline.pathOffset s
    /\ Polyline.width s' = Polyline.width s
    /\ Polyline.height s' = Polyline.height s
    /\ PolyControl.shearOf s' = PolyControl.shearOf s
    /\ signedScaleOf s' = signedScaleOf s
    /\ (forall v, Polyline.rotateVector s' v = Polyline.rotateVector s v).
Proof.
  intros s pos originX originY. cbn. repeat split; reflexivity.
Qed.


(** The inner handler runs on a control whose index is inside the array: it
    replaces that point and recomputes. *)
Lemma polyActionHandler_runs :
  forall (poly : Polyline.t R) (x y : R) (currentControl : Control),
    PolyControl.currentControlOf poly = Some currentControl ->
    (0 <= pointIndex currentControl < Z.of_nat (List.length (Polyline.points poly)))%Z ->
    exists finalPointPosition,
      PolyControl.polyActionHandler poly x y
      = Some (true,
              Polyline.setDimensions
                (Polyline.set_points poly
                   (replace_nth (Polyline.points poly)
                      (Z.to_nat (pointIndex currentControl)) finalPointPosition))).
Proof.
  intros poly x y currentControl Hcontrol Hindex.
  unfold PolyControl.polyActionHandler. rewrite Hcontrol.
  eexists. rewrite array_set_in_range by exact Hindex. reflexivity.
Qed.



End Anchor.


Lemma diagonal_size :
  Polyline.width diagonal = 10%R /\ Polyline.height diagonal = 10%R.
Proof.
  unfold diagonal, Polyline.setDimensions.
  cbn -[Rmax Rmin].
  unfold Rmax, Rmin.
  repeat destruct (Rle_dec _ _); lra.
Qed.


Lemma diagonal_control :
  PolyControl.currentControlOf diagonal = Some {| pointIndex := 1 |}
  /\ (0 <= 1 < Z.of_nat (List.length (Polyline.points diagonal)))%Z
  /\ PolyControl.anchorIndexOf diagonal {| pointIndex := 1 |} = 0%Z
  /\ array_get (Polyline.points diagonal) 0 = Some (Point.mk 0%R 0%R).
Proof.
  split; [ reflexivity | ].
  split; [ | split; reflexivity ].
  change (Polyline.points diagonal) with [Point.mk 0%R 0%R; Point.mk 10%R 10%R].
  cbn [List.length]. lia.
Qed.

(** C2 at the diagonal, its end being dragged to the pointer at (5,0) from
    the center: the anchor is the vertex of index 0. *)
Lemma anchorWrapper_origin_fraction_witness :
  exists (poly1 : Polyline.t R) (absolutePoint anchor : Point.t R),
    @PolyControl.polyActionHandler R _ _ sample_collaborators sample_util
      diagonal 5%R 0%R = Some (true, poly1)
    /\ array_get (Polyline.points poly1) 0 = Some anchor
    /\ @PolyControl.anchorWrapper R _ _ sample_collaborators
         (@PolyControl.polyActionHandler R _ _ sample_collaborators sample_util)
         diagonal 5%R 0%R
       = Some (true,
               @Polyline.setPositionByOrigin R _ _ sample_collaborators
                 poly1 absolutePoint
                 (origin_number
                    (Point.x
                       (PolyControl.applySkew
                          (Point.subtract anchor (Polyline.pathOffset poly1))
                          (PolyControl.shearOf poly1))
                     / Polyline.width poly1 * 1 + 1 / 2)%R)
                 (origin_number
                    (Point.y
                       (PolyControl.applySkew
                          (Point.subtract anchor (Polyline.pathOffset poly1))
                          (PolyControl.shearOf poly1))
                     / Polyline.height poly1 * 1 + 1 / 2)%R)).
Proof.
  destruct diagonal_control as (Hcontrol & Hindex & Hanchor & Hget).
  destruct (@polyActionHandler_runs sample_collaborators sample_util
              diagonal 5%R 0%R {| pointIndex := 1 |} Hcontrol Hindex)
    as [finalPointPosition Hfn].
  set (poly1 := Polyline.setDimensions _) in Hfn.
  assert (Hget1 : array_get (Polyline.points poly1)
                    (PolyControl.anchorIndexOf diagonal {| pointIndex := 1 |})
                  = Some (Point.mk 0%R 0%R)).
  { rewrite Hanchor. reflexivity. }
  assert (Habsolute :
            @PolyControl.absolutePointOf R _ _ sample_collaborators diagonal
              (PolyControl.anchorIndexOf diagonal {| pointIndex := 1 |})
            = Some (Point.transform
                      (Point.subtract (Point.mk 0%R 0%R) (Polyline.pathOffset diagonal))
                      (@Polyline.calcTransformMatrix R _ _ sample_collaborators diagonal))).
  { unfold PolyControl.absolutePointOf. rewrite Hanchor, Hget. reflexivity. }
  exists poly1. eexists. exists (Point.mk 0%R 0%R).
  split; [ exact Hfn | ].
  split; [ rewrite <- Hanchor; exact Hget1 | ].
  exact (@anchorWrapper_origin_fraction R _ _ sample_collaborators
           (@PolyControl.polyActionHandler R _ _ sample_collaborators sample_util)
           diagonal poly1 5%R 0%R {| pointIndex := 1 |} _ _ true
           Hcontrol Habsolute Hfn Hget1).
Defined.

Lemma tan_45_degrees : Math_tan (degreesToRadians 45%R) = 1%R.
Proof.
  cbn. replace (45 * (PI / 180))%R with (PI / 4)%R by field. apply tan_PI4.
Qed.

Lemma tan_0_degrees : Math_tan (degreesToRadians 0%R) = 0%R.
Proof.
  cbn. rewrite Rmult_0_l. apply tan_0.
Qed.

Lemma sheared_geometry :
  Polyline.width sheared = 2%R
  /\ Polyline.height sheared = 2%R
  /\ Polyline.pathOffset sheared = Point.mk 0%R 0%R
  /\ PolyControl.shearOf sheared = Point.mk 1%R 0%R.
Proof.
  assert (Hshear : PolyControl.shearOf sheared = Point.mk 1%R 0%R).
  { unfold PolyControl.shearOf.
    change (Polyline.skewX sheared) with 45%R.
    change (Polyline.skewY sheared) with 0%R.
    rewrite tan_45_degrees, tan_0_degrees. reflexivity. }
  assert (Hsize : Polyline.width sheared = 2%R /\ Polyline.height sheared = 2%R).
  { unfold sheared, Polyline.setDimensions.
    cbn -[Rmax Rmin].
    unfold Rmax, Rmin.
    repeat destruct (Rle_dec _ _); lra. }
  destruct Hsize as [Hw Hh].
  repeat split; try assumption.
  unfold sheared, Polyline.setDimensions, Polyline._setPositionDimensions.
  cbn [Polyline.pathOffset Polyline.set_pathOffset Polyline.no_options
       opt_left opt_top].
  cbn [Polyline.skewX Polyline.skewY Polyline.set_top Polyline.set_left
       Polyline.set_height Polyline.set_width Polyline.Object__set
       Polyline.number_for String.eqb Ascii.eqb Bool.eqb plain_shape].
  change (@nzero R RNumber) with 0%R.
  rewrite tan_45_degrees, tan_0_degrees.
  cbn -[Rmax Rmin].
  unfold Rmax, Rmin.
  repeat destruct (Rle_dec _ _); try lra; f_equal; lra.
Qed.

(** C2, as the specification words it, fails: at the anchor (1,1) of the
    sheared segment the code repositions by the origin fraction (3/2, 1),
    where the formula with [removeSkew] gives (1/2, 1). *)
Lemma origin_fraction_is_not_removeSkew :
  option_map (fun newPosition => Point.scalarAdd newPosition (1 / 2)%R)
             (@PolyControl.newPositionOf R _ _ sheared 1)
  = Some (Point.mk (3 / 2)%R 1%R)
  /\ @PolyControl.spec_origin_fraction R _ _ sheared 1
     = Some (Point.mk (1 / 2)%R 1%R).
Proof.
  destruct sheared_geometry as (Hw & Hh & Hoffset & Hshear).
  unfold PolyControl.newPositionOf, PolyControl.spec_origin_fraction.
  change (array_get (Polyline.points sheared) 1) with (Some (Point.mk 1%R 1%R)).
  unfold PolyControl.getSize. rewrite Hw, Hh, Hoffset, Hshear.
  change (PolyControl.adjustFlipOf sheared) with (Point.mk 1%R 1%R).
  unfold Point.scalarAdd, Point.multiply, Point.divide, Point.subtract,
    PolyControl.applySkew, PolyControl.removeSkew.
  cbn. split; f_equal; f_equal; lra.
Qed.

Lemma diagonal_geometry :
  Polyline.width diagonal = 10%R
  /\ Polyline.height diagonal = 10%R
  /\ Polyline.pathOffset diagonal = Point.mk 5%R 5%R
  /\ PolyControl.shearOf diagonal = Point.mk 0%R 0%R.
Proof.
  assert (Hshear : PolyControl.shearOf diagonal = Point.mk 0%R 0%R).
  { unfold PolyControl.shearOf.
    change (Polyline.skewX diagonal) with 0%R.
    change (Polyline.skewY diagonal) with 0%R.
    rewrite tan_0_degrees. reflexivity. }
  destruct diagonal_size as [Hw Hh].
  repeat split; try assumption.
  unfold diagonal, Polyline.setDimensions, Polyline._setPositionDimensions.
  cbn [Polyline.pathOffset Polyline.set_pathOffset Polyline.no_options
       opt_left opt_top].
  cbn [Polyline.skewX Polyline.skewY Polyline.set_top Polyline.set_left
       Polyline.set_height Polyline.set_width plain_shape].
  change (@nzero R RNumber) with 0%R.
  rewrite tan_0_degrees.
  cbn -[Rmax Rmin].
  unfold Rmax, Rmin.
  repeat destruct (Rle_dec _ _); try lra; f_equal; lra.
Qed.

(** The step of the witness, computed: the end of the diagonal goes to
    (10,5), the recomputed size is 10 by 5, and the anchor stays at (0,0). *)
Lemma diagonal_drag :
  exists poly' : Polyline.t R,
    @PolyControl.actionHandler R _ _ sample_collaborators sample_util
      diagonal 5%R 0%R = Some (true, poly')
    /\ Polyline.points poly' = [Point.mk 0%R 0%R; Point.mk 10%R 5%R]
    /\ Polyline.width poly' = 10%R
    /\ Polyline.height poly' = 5%R.
Proof.
  destruct diagonal_control as (Hcontrol & Hindex & Hanchor & Hget).
  destruct diagonal_geometry as (Hw & Hh & Hoffset & Hshear).
  assert (Hfn :
    @PolyControl.polyActionHandler R _ _ sample_collaborators sample_util
      diagonal 5%R 0%R
    = Some (true,
            @Polyline.setDimensions R _ _ sample_collaborators
              (Polyline.set_points diagonal [Point.mk 0%R 0%R; Point.mk 10%R 5%R]))).
  { unfold PolyControl.polyActionHandler. rewrite Hcontrol.
    rewrite array_set_in_range by exact Hindex.
    change (Z.to_nat (pointIndex {| pointIndex := 1 |})) with 1%nat.
    unfold PolyControl.getSize.
    change (@Polyline._getTransformedDimensions R _ sample_collaborators diagonal [])
      with (Point.mk (Polyline.width diagonal * 1) (Polyline.height diagonal * 1))%R.
    rewrite Hw, Hh, Hoffset, Hshear.
    change (PolyControl.adjustFlipOf diagonal) with (Point.mk 1%R 1%R).
    change (PolyControl.getLocalPoint diagonal origin_center origin_center 5%R 0%R)
      with (Point.mk 5%R 0%R).
    change (Polyline.points diagonal) with [Point.mk 0%R 0%R; Point.mk 10%R 10%R].
    unfold PolyControl.removeSkew, PolyControl.applySkew, Point.add, Point.multiply,
      Point.divide.
    cbn [replace_nth Point.x Point.y nadd nsub nmul ndiv RNumber].
    repeat f_equal; field. }
  set (poly1 := Polyline.setDimensions _) in Hfn.
  assert (Hsize1 : Polyline.width poly1 = 10%R /\ Polyline.height poly1 = 5%R).
  { subst poly1. unfold Polyline.setDimensions.
    cbn -[Rmax Rmin].
    unfold Rmax, Rmin.
    repeat destruct (Rle_dec _ _); lra. }
  assert (Hnew : exists np, @PolyControl.newPositionOf R _ _ poly1
                   (PolyControl.anchorIndexOf diagonal {| pointIndex := 1 |}) = Some np).
  { rewrite Hanchor. unfold PolyControl.newPositionOf.
    change (array_get (Polyline.points poly1) 0) with (Some (Point.mk 0%R 0%R)).
    eexists. reflexivity. }
  destruct Hnew as [np Hnew].
  assert (Habsolute : exists w,
            @PolyControl.absolutePointOf R _ _ sample_collaborators diagonal
              (PolyControl.anchorIndexOf diagonal {| pointIndex := 1 |}) = Some w).
  { unfold PolyControl.absolutePointOf. rewrite Hanchor, Hget. eexists. reflexivity. }
  destruct Habsolute as [w Habsolute].
  eexists. split.
  - exact (@anchorWrapper_runs R _ _ sample_collaborators
             (@PolyControl.polyActionHandler R _ _ sample_collaborators sample_util)
             diagonal poly1 5%R 0%R {| pointIndex := 1 |} w np true
             Hcontrol Habsolute Hfn Hnew).
  - destruct Hsize1 as [Hw1 Hh1].
    match goal with
    | |- context [Polyline.setPositionByOrigin poly1 ?pos ?a ?b] =>
      destruct (@setPositionByOrigin_frame sample_collaborators poly1 pos a b)
        as (Hpoints & _ & Hwidth & Hheight & _)
    end.
    rewrite Hpoints, Hwidth, Hheight.
    split; [ reflexivity | ]. split; assumption.
Qed.


(** The scenario of section 8 on binary64: dragging vertex 2 of the square
    by (5,0) leaves vertex 1, the anchor, at (10,0) in the world and moves
    vertex 2 to (15,10). *)
Example square_drag_keeps_anchor :
  let step :=
    @PolyControl.actionHandler float _ _ sample_collaborators sample_util
      square64 10%float 5%float in
  PolyControl.anchorIndexOf square64 {| pointIndex := 2 |} = 1%Z
  /\ @PolyControl.absolutePointOf float _ _ sample_collaborators square64 1
     = Some (Point.mk 10%float 0%float)
  /\ match step with
     | Some (_, poly') =>
       (@PolyControl.absolutePointOf float _ _ sample_collaborators poly' 1,
        @PolyControl.absolutePointOf float _ _ sample_collaborators poly' 2,
        array_get (Polyline.points poly') 2,
        Polyline.pathOffset poly')
     | None => (None, None, None, Point.mk nan nan)
     end
     = (Some (Point.mk 10%float 0%float), Some (Point.mk 15%float 10%float),
        Some (Point.mk 15%float 10%float), Point.mk 7.5%float 5%float).
Proof.
  vm_compute. repeat split; reflexivity.
Qed.

(** * Further properties of the shear *)

Section ShearAlgebra.
Local Open Scope R_scope.

(** X2: both shears are linear: they commute with the sum of two points and
    with the product of a point by a factor. *)
Theorem shear_linear :
  forall (p q s : Point.t R) (k : R),
    PolyControl.applySkew (Point.add p q) s
      = Point.add (PolyControl.applySkew p s) (PolyControl.applySkew q s)
    /\ PolyControl.removeSkew (Point.add p q) s
      = Point.add (PolyControl.removeSkew p s) (PolyControl.removeSkew q s)
    /\ PolyControl.applySkew (Point.multiply (Point.mk k k) p) s
      = Point.multiply (Point.mk k k) (PolyControl.applySkew p s)
    /\ PolyControl.removeSkew (Point.multiply (Point.mk k k) p) s
      = Point.multiply (Point.mk k k) (PolyControl.removeSkew p s).
Proof.
  intros [px py] [qx qy] [sx sy] k.
  unfold PolyControl.applySkew, PolyControl.removeSkew, Point.add, Point.multiply; cbn.
  repeat split; f_equal; ring.
Qed.

(** Adding a skewed point before [removeSkew] adds the point itself after
    it: what [polyActionHandler] does with the skewed path offset. *)
Lemma removeSkew_add_applySkew :
  forall a c s : Point.t R,
    PolyControl.removeSkew (Point.add a (PolyControl.applySkew c s)) s
    = Point.add (PolyControl.removeSkew a s) c.
Proof.
  intros [ax ay] [cx cy] [sx sy].
  unfold PolyControl.applySkew, PolyControl.removeSkew, Point.add; cbn.
  f_equal; ring.
Qed.

End ShearAlgebra.

(** * Further properties of the recompute *)

Section RecomputeMore.
Context {T : Type} `{Number T} `{MathObject T} `{Polyline.Collaborators T}.

(** X3: what the recompute derives does not depend on what [width], [height],
    [pathOffset], [left] and [top] held before the call: two shapes with
    the same points and the same style and transform fields get the same
    width, height and path offset, whatever the options of the two calls,
    for a stroke projector that reads the points and the style only. *)
Theorem derived_geometry_forgets_previous :
  projector_reads_inputs ->
  forall (s1 s2 : Polyline.t T) (o1 o2 : PositionOptions T),
    same_inputs s1 s2 ->
    Polyline.width (Polyline._setPositionDimensions s1 o1)
      = Polyline.width (Polyline._setPositionDimensions s2 o2)
    /\ Polyline.height (Polyline._setPositionDimensions s1 o1)
      = Polyline.height (Polyline._setPositionDimensions s2 o2)
    /\ Polyline.pathOffset (Polyline._setPositionDimensions s1 o1)
      = Polyline.pathOffset (Polyline._setPositionDimensions s2 o2).
Proof.
  intros Hproj s1 s2 o1 o2 Hsame.
  apply _setPositionDimensions_derived; [ exact Hsame | ].
  apply _calcDimensions_same_inputs; assumption.
Qed.

End RecomputeMore.

Lemma sample_projector_reads_inputs :
  forall (T : Type) (N : Number T), @projector_reads_inputs T sample_collaborators.
Proof.
  intros T N s1 s2 Hsame. cbn. unfold project_points.
  destruct Hsame as [Hpoints _]. rewrite Hpoints. reflexivity.
Qed.

(** X3 at a concrete shape.
    The property at the diagonal and at the diagonal with a width set by
    hand: the width of 99 does not survive the recompute. *)
Lemma derived_geometry_forgets_previous_witness :
  let s1 := diagonal64 in
  let s2 := Polyline.Object__set "width" (VNumber 99%float) diagonal64 in
  Polyline.width s2 = 99%float
  /\ same_inputs s1 s2
  /\ Polyline.width
       (@Polyline._setPositionDimensions float _ _ sample_collaborators s1 Polyline.no_options)
     = Polyline.width
         (@Polyline._setPositionDimensions float _ _ sample_collaborators s2 Polyline.no_options)
  /\ Polyline.height
       (@Polyline._setPositionDimensions float _ _ sample_collaborators s1 Polyline.no_options)
     = Polyline.height
         (@Polyline._setPositionDimensions float _ _ sample_collaborators s2 Polyline.no_options)
  /\ Polyline.pathOffset
       (@Polyline._setPositionDimensions float _ _ sample_collaborators s1 Polyline.no_options)
     = Polyline.pathOffset
         (@Polyline._setPositionDimensions float _ _ sample_collaborators s2 Polyline.no_options).
Proof.
  cbv zeta.
  assert (Hsame : same_inputs diagonal64
                    (Polyline.Object__set "width" (VNumber 99%float) diagonal64)).
  { unfold same_inputs. repeat split; reflexivity. }
  split; [ vm_compute; reflexivity | ].
  split; [ exact Hsame | ].
  exact (@derived_geometry_forgets_previous float _ _ sample_collaborators
           (sample_projector_reads_inputs float _)
           diagonal64 (Polyline.Object__set "width" (VNumber 99%float) diagonal64)
           Polyline.no_options Polyline.no_options Hsame).
Defined.

Section RecomputeExactMore.
Context `{Polyline.Collaborators R}.
Local Open Scope R_scope.

(** X4: the skewed path offset that [polyActionHandler] computes is the center
    of the bounding box: [applySkew] undoes the unshear by which the
    recompute derived [pathOffset] from that center. *)
Theorem skewed_pathOffset_is_box_center :
  forall (this : Polyline.t R) (options : PositionOptions R),
    let bbox := Polyline._calcDimensions this in
    let this' := Polyline._setPositionDimensions this options in
    PolyControl.applySkew (Polyline.pathOffset this') (PolyControl.shearOf this')
    = Point.mk (BBox.left bbox + BBox.width bbox / 2)
               (BBox.top bbox + BBox.height bbox / 2).
Proof.
  intros this options bbox this'. subst this' bbox.
  destruct options as [[l|] [t0|] svg];
    unfold PolyControl.applySkew, PolyControl.shearOf; cbn;
    f_equal; ring.
Qed.

(** X5: a shape whose projection is empty (no point to project) gets the
    geometry of the single point (0,0) under its stroke: the path offset is
    (0,0), the width and the height are minus the stroke correction. *)
Theorem _setPositionDimensions_no_point :
  forall (this : Polyline.t R) (options : PositionOptions R),
    map (fun elem => projectedPoint elem) (Polyline._projectStrokeOnPoints this) = [] ->
    let this' := Polyline._setPositionDimensions this options in
    Polyline.pathOffset this' = Point.mk 0 0
    /\ Polyline.width this'
       = - (Polyline.strokeWidth this
            / (if Polyline.strokeUniform this then Polyline.scaleX this else 1))
    /\ Polyline.height this'
       = - (Polyline.strokeWidth this
            / (if Polyline.strokeUniform this then Polyline.scaleY this else 1)).
Proof.
  intros this options Hempty this'. subst this'.
  assert (Hbox : Polyline._calcDimensions this = BBox.mk 0 0 (0 - 0) (0 - 0)).
  { unfold Polyline._calcDimensions. rewrite Hempty. reflexivity. }
  destruct options as [[l|] [t0|] svg];
    unfold Polyline._setPositionDimensions;
    cbn [opt_left opt_top fromSVG]; rewrite !Hbox;
    cbn; destruct (Polyline.strokeUniform this); cbn;
    rewrite ?Rplus_0_l;
    (split; [ f_equal; unfold Rdiv; ring | split; unfold Rdiv; ring ]).
Qed.

End RecomputeExactMore.

(** X5 at a concrete shape.
    The empty polyline under a stroke of width 3. *)
Lemma _setPositionDimensions_no_point_witness :
  let this :=
    Polyline.Object__set "strokeWidth" (VNumber 3%R) (plain_shape [] [] EmptyString) in
  let this' :=
    @Polyline._setPositionDimensions R _ _ sample_collaborators this Polyline.no_options in
  Polyline.pathOffset this' = Point.mk 0%R 0%R
  /\ Polyline.width this' = (- (3 / 1))%R
  /\ Polyline.height this' = (- (3 / 1))%R.
Proof.
  apply (@_setPositionDimensions_no_point sample_collaborators
           (Polyline.Object__set "strokeWidth" (VNumber 3%R)
              (plain_shape [] [] EmptyString))
           Polyline.no_options).
  reflexivity.
Defined.

(** * Further properties of the controls *)

Section ArrayMore.
Context {A : Type}.

Lemma array_get_replace_nth_same :
  forall (a : list A) (n : nat) (v : A),
    (n < List.length a)%nat ->
    array_get (replace_nth a n v) (Z.of_nat n) = Some v.
Proof.
  intros a n v Hn. unfold array_get.
  destruct (Z.ltb_spec (Z.of_nat n) 0) as [Hneg | _]; [ lia | ].
  rewrite Nat2Z.id. revert n Hn.
  induction a as [| h rest IH]; intros [| n] Hn; cbn in *; try lia; auto.
  apply IH. lia.
Qed.

Lemma array_get_replace_nth_other :
  forall (a : list A) (n : nat) (v : A) (i : Z),
    i <> Z.of_nat n ->
    array_get (replace_nth a n v) i = array_get a i.
Proof.
  intros a n v i Hi. unfold array_get.
  destruct (Z.ltb_spec i 0) as [Hneg | Hpos]; [ reflexivity | ].
  assert (Hn : Z.to_nat i <> n) by lia. clear Hi Hpos.
  revert n Hn. generalize (Z.to_nat i) as m.
  induction a as [| h rest IH]; intros [| m] [| n] Hn; cbn; auto; try congruence.
Qed.

Lemma array_get_defined :
  forall (a : list A) (i : Z),
    (exists v, array_get a i = Some v) <-> (0 <= i < Z.of_nat (List.length a))%Z.
Proof.
  intros a i. split.
  - intros [v Hv]. unfold array_get in Hv.
    destruct (Z.ltb_spec i 0) as [Hneg | Hpos]; [ discriminate | ].
    assert (Hlt : (Z.to_nat i < List.length a)%nat).
    { apply nth_error_Some. congruence. }
    lia.
  - apply array_get_in_range.
Qed.

End ArrayMore.

Section ControlsMore.
Context {T : Type} `{Number T} `{MathObject T}
  `{Polyline.Collaborators T} `{PolyControl.ControlUtil T}.
Local Open Scope num_scope.

(** The step of [polyActionHandler] on a control whose index is inside the
    array, with the point it stores written out. *)
Lemma polyActionHandler_step :
  forall (poly : Polyline.t T) (x y : T) (currentControl : Control),
    PolyControl.currentControlOf poly = Some currentControl ->
    (0 <= pointIndex currentControl < Z.of_nat (List.length (Polyline.points poly)))%Z ->
    PolyControl.polyActionHandler poly x y
    = Some (true,
            Polyline.setDimensions
              (Polyline.set_points poly
                 (replace_nth (Polyline.points poly)
                    (Z.to_nat (pointIndex currentControl))
                    (PolyControl.removeSkew
                       (Point.add
                          (Point.multiply
                             (Point.multiply
                                (PolyControl.getLocalPoint poly origin_center origin_center x y)
                                (PolyControl.adjustFlipOf poly))
                             (Point.divide (PolyControl.getSize poly)
                                (Polyline._getTransformedDimensions poly [])))
                          (PolyControl.applySkew (Polyline.pathOffset poly)
                             (PolyControl.shearOf poly)))
                       (PolyControl.shearOf poly))))).
Proof.
  intros poly x y currentControl Hcontrol Hindex.
  unfold PolyControl.polyActionHandler. rewrite Hcontrol.
  rewrite array_set_in_range by exact Hindex. reflexivity.
Qed.

Lemma setDimensions_points :
  forall this : Polyline.t T,
    Polyline.points (Polyline.setDimensions this) = Polyline.points this.
Proof.
  intros this. unfold Polyline.setDimensions.
  destruct (_setPositionDimensions_frame this Polyline.no_options) as [Hpoints _].
  exact Hpoints.
Qed.


(** X8: the anchor is the previous vertex, wrapping from the first to the last:
    for a control inside the array it is inside the array too, it is the
    dragged vertex itself only when the shape has a single point, and
    otherwise [polyActionHandler] leaves the anchor vertex as it was. *)
Theorem anchor_is_previous_vertex :
  forall (poly : Polyline.t T) (x y : T) (currentControl : Control),
    PolyControl.currentControlOf poly = Some currentControl ->
    (0 <= pointIndex currentControl < Z.of_nat (List.length (Polyline.points poly)))%Z ->
    let anchorIndex := PolyControl.anchorIndexOf poly currentControl in
    (0 <= anchorIndex < Z.of_nat (List.length (Polyline.points poly)))%Z
    /\ (anchorIndex = pointIndex currentControl
        <-> List.length (Polyline.points poly) = 1%nat)
    /\ (List.length (Polyline.points poly) <> 1%nat ->
        exists poly' : Polyline.t T,
          PolyControl.polyActionHandler poly x y = Some (true, poly')
          /\ array_get (Polyline.points poly') anchorIndex
             = array_get (Polyline.points poly) anchorIndex).
Proof.
  intros poly x y currentControl Hcontrol Hindex anchorIndex.
  assert (Hanchor : (anchorIndex
                     = if (0 <? pointIndex currentControl)%Z
                       then pointIndex currentControl - 1
                       else Z.of_nat (List.length (Polyline.points poly)) - 1)%Z).
  { subst anchorIndex. unfold PolyControl.anchorIndexOf.
    destruct (0 <? pointIndex currentControl)%Z; reflexivity. }
  assert (Hsame : anchorIndex = pointIndex currentControl
                  <-> List.length (Polyline.points poly) = 1%nat).
  { rewrite Hanchor.
    destruct (Z.ltb_spec 0 (pointIndex currentControl)); split; lia. }
  split; [ rewrite Hanchor; destruct (Z.ltb_spec 0 (pointIndex currentControl)); lia | ].
  split; [ exact Hsame | ].
  intros Hmany.
  eexists.
  split; [ exact (polyActionHandler_step poly x y currentControl Hcontrol Hindex) | ].
  rewrite setDimensions_points. cbn [Polyline.points Polyline.set_points].
  apply array_get_replace_nth_other.
  intros Heq. apply Hmany. apply Hsame. lia.
Qed.

(** X9: with no point, [anchorWrapper] throws before it calls the inner
    handler, whatever that handler and whatever the control: the anchor
    vertex it reads is undefined. *)
Theorem anchorWrapper_no_point :
  forall (fn : PolyControl.TransformActionHandler T) (poly : Polyline.t T) (x y : T),
    Polyline.points poly = [] ->
    PolyControl.anchorWrapper fn poly x y = None.
Proof.
  intros fn poly x y Hempty.
  unfold PolyControl.anchorWrapper.
  destruct (PolyControl.currentControlOf poly) as [currentControl |]; [ | reflexivity ].
  unfold PolyControl.absolutePointOf. rewrite Hempty.
  unfold array_get.
  destruct (PolyControl.anchorIndexOf poly currentControl <? 0)%Z; [ reflexivity | ].
  rewrite nth_error_nil. reflexivity.
Qed.

(** X10: when [anchorWrapper] throws and what it returns.  It throws exactly
    when [__corner] names no control, or the anchor vertex is undefined
    before the inner handler runs, or the inner handler throws, or the
    anchor vertex is undefined in the shape the inner handler leaves.  When
    it returns, the boolean is the one the inner handler returned. *)
Theorem anchorWrapper_outcome :
  forall (fn : PolyControl.TransformActionHandler T) (poly : Polyline.t T) (x y : T),
    (PolyControl.anchorWrapper fn poly x y = None
     <-> (PolyControl.currentControlOf poly = None
          \/ exists currentControl,
               PolyControl.currentControlOf poly = Some currentControl
               /\ (array_get (Polyline.points poly)
                             (PolyControl.anchorIndexOf poly currentControl) = None
                   \/ fn poly x y = None
                   \/ exists actionPerformed poly1,
                        fn poly x y = Some (actionPerformed, poly1)
                        /\ array_get (Polyline.points poly1)
                                     (PolyControl.anchorIndexOf poly currentControl)
                           = None)))
    /\ (forall actionPerformed poly',
          PolyControl.anchorWrapper fn poly x y = Some (actionPerformed, poly') ->
          exists poly1, fn poly x y = Some (actionPerformed, poly1)).
Proof.
  intros fn poly x y.
  unfold PolyControl.anchorWrapper, PolyControl.absolutePointOf,
    PolyControl.newPositionOf.
  destruct (PolyControl.currentControlOf poly) as [currentControl |].
  2: { split; [ split; auto | intros ? ? Hsome; discriminate ]. }
  destruct (array_get (Polyline.points poly)
                      (PolyControl.anchorIndexOf poly currentControl))
    as [anchor |] eqn:Hanchor.
  2: { split; [ | intros ? ? Hsome; discriminate ].
       split; [ intros _; right; exists currentControl; auto | reflexivity ]. }
  destruct (fn poly x y) as [[actionPerformed poly1] |] eqn:Hfn.
  2: { split; [ | intros ? ? Hsome; discriminate ].
       split; [ intros _; right; exists currentControl; auto | reflexivity ]. }
  destruct (array_get (Polyline.points poly1)
                      (PolyControl.anchorIndexOf poly currentControl))
    as [anchor1 |] eqn:Hanchor1.
  - split.
    + split; [ discriminate | ].
      intros [Hnone | [c [Hc Hrest]]]; [ discriminate | ].
      assert (Hc' : c = currentControl) by congruence. subst c.
      destruct Hrest as [Hnone | [Hnone | [b [p1 [Hp1 Hnone]]]]];
        [ congruence | discriminate | ].
      assert (Hp' : p1 = poly1) by congruence. subst p1.
      congruence.
    + intros b p' Hsome. injection Hsome as <- _. exists poly1. reflexivity.
  - split; [ | intros ? ? Hsome; discriminate ].
    split; [ | reflexivity ].
    intros _. right. exists currentControl. split; [ reflexivity | ].
    right. right. exists actionPerformed, poly1. auto.
Qed.

(** X11: [positionHandler] returns a point exactly when the index of the control
    is inside the array of points; outside, the read of the vertex is
    undefined and the call throws. *)
Theorem positionHandler_defined :
  forall (this : Control) (polyObject : Polyline.t T),
    (exists position, PolyControl.positionHandler this polyObject = Some position)
    <-> (0 <= pointIndex this < Z.of_nat (List.length (Polyline.points polyObject)))%Z.
Proof.
  intros this polyObject.
  rewrite <- array_get_defined.
  unfold PolyControl.positionHandler.
  destruct (array_get (Polyline.points polyObject) (pointIndex this)) as [p |].
  - split; intros _; eexists; reflexivity.
  - split; intros [v Hv]; discriminate.
Qed.

End ControlsMore.

Section ControlsExact.
Context `{Polyline.Collaborators R} `{PolyControl.ControlUtil R}.
Local Open Scope R_scope.

(** X7: where a drag puts the vertex (exact arithmetic): at the path offset
    plus the unskewed pointer, the pointer being the local position taken
    with the flips and the size factor.  The skew of the path offset that
    the handler adds before [removeSkew] cancels. *)
Theorem polyActionHandler_new_vertex :
  forall (poly : Polyline.t R) (x y : R) (currentControl : Control),
    PolyControl.currentControlOf poly = Some currentControl ->
    (0 <= pointIndex currentControl < Z.of_nat (List.length (Polyline.points poly)))%Z ->
    let mouseLocalPosition :=
      PolyControl.getLocalPoint poly origin_center origin_center x y in
    let sizeFactor :=
      Point.divide (PolyControl.getSize poly)
                   (Polyline._getTransformedDimensions poly []) in
    exists poly' : Polyline.t R,
      PolyControl.polyActionHandler poly x y = Some (true, poly')
      /\ array_get (Polyline.points poly') (pointIndex currentControl)
         = Some (Point.add
                   (PolyControl.removeSkew
                      (Point.multiply
                         (Point.multiply mouseLocalPosition (PolyControl.adjustFlipOf poly))
                         sizeFactor)
                      (PolyControl.shearOf poly))
                   (Polyline.pathOffset poly)).
Proof.
  intros poly x y currentControl Hcontrol Hindex mouseLocalPosition sizeFactor.
  eexists.
  split; [ exact (polyActionHandler_step poly x y currentControl Hcontrol Hindex) | ].
  rewrite setDimensions_points. cbn [Polyline.points Polyline.set_points].
  match goal with
  | |- array_get (replace_nth ?l ?n ?v) _ = _ =>
      pose proof (@array_get_replace_nth_same _ l n v) as Hget
  end.
  rewrite Z2Nat.id in Hget by lia. rewrite Hget by lia.
  rewrite removeSkew_add_applySkew. reflexivity.
Qed.

Lemma transform_multiplyTransformMatrices :
  forall (q : Point.t R) (m n : TMat2D.t R),
    Point.transform q (TMat2D.multiplyTransformMatrices m n)
    = Point.transform (Point.transform q n) m.
Proof.
  intros [qx qy] [a b c d e f] [a' b' c' d' e' f'].
  unfold Point.transform, TMat2D.multiplyTransformMatrices; cbn.
  f_equal; ring.
Qed.

(** X12: on a canvas with a viewport transform, the position of a control is the
    position in the plane of the shape (the vertex taken from the path
    offset and sent through the matrix of the shape) sent through the
    viewport transform: the shape first, the viewport after. *)
Theorem positionHandler_through_viewport :
  forall (this : Control) (polyObject : Polyline.t R) (canvas : Canvas R)
         (viewport : TMat2D.t R) (p : Point.t R),
    Polyline.canvas polyObject = Some canvas ->
    viewportTransform canvas = Some viewport ->
    array_get (Polyline.points polyObject) (pointIndex this) = Some p ->
    PolyControl.positionHandler this polyObject
    = Some (Point.transform
              (Point.transform
                 (Point.subtract p (Polyline.pathOffset polyObject))
                 (Polyline.calcTransformMatrix polyObject))
              viewport).
Proof.
  intros this polyObject canvas viewport p Hcanvas Hviewport Hp.
  unfold PolyControl.positionHandler, PolyControl.viewportOf.
  rewrite Hp, Hcanvas, Hviewport.
  rewrite transform_multiplyTransformMatrices. reflexivity.
Qed.

End ControlsExact.

(** * The controls of a polygon *)

Section CreateControls.

Lemma lookup_assign :
  forall (A : Type) (o : list (string * A)) (key key' : string) (v : A),
    lookup (PolyControl.assign o key v) key'
    = if String.eqb key key' then Some v else lookup o key'.
Proof.
  intros A o key key' v.
  induction o as [| [k w] rest IH]; cbn.
  - reflexivity.
  - destruct (String.eqb_spec k key) as [-> | Hk]; cbn.
    + destruct (String.eqb_spec key key'); reflexivity.
    + destruct (String.eqb_spec k key') as [-> | Hk'].
      * destruct (String.eqb_spec key key'); congruence.
      * exact IH.
Qed.

Lemma length_assign_fresh :
  forall (A : Type) (o : list (string * A)) (key : string) (v : A),
    lookup o key = None ->
    List.length (PolyControl.assign o key v) = S (List.length o).
Proof.
  intros A o key v.
  induction o as [| [k w] rest IH]; cbn; intros Hfresh.
  - reflexivity.
  - destruct (String.eqb_spec k key) as [-> | Hk]; [ discriminate | ].
    cbn. rewrite IH by exact Hfresh. reflexivity.
Qed.

(** Two indices have the same key only when they are the same index. *)
Lemma controlKey_inj :
  forall i j : nat, PolyControl.controlKey i = PolyControl.controlKey j -> i = j.
Proof.
  intros i j Heq. unfold PolyControl.controlKey in Heq.
  cbn in Heq. injection Heq as Heq.
  apply (f_equal NilEmpty.uint_of_string) in Heq.
  rewrite !NilEmpty.usu in Heq. injection Heq as Heq.
  apply (f_equal Nat.of_uint) in Heq.
  rewrite !Unsigned.of_to in Heq. exact Heq.
Qed.

Lemma lookup_controls_key :
  forall (k a : nat) (o : list (string * Control)) (j : nat),
    lookup (fold_left add_control (seq a k) o) (PolyControl.controlKey j)
    = if (Nat.leb a j && Nat.ltb j (a + k))%bool
      then Some {| pointIndex := Z.of_nat j |}
      else lookup o (PolyControl.controlKey j).
Proof.
  induction k as [| k IH]; intros a o j.
  - cbn [seq fold_left].
    destruct (Nat.leb_spec a j); destruct (Nat.ltb_spec j (a + 0)); cbn; auto; lia.
  - cbn [seq fold_left]. rewrite IH. unfold add_control.
    rewrite lookup_assign.
    destruct (String.eqb_spec (PolyControl.controlKey a) (PolyControl.controlKey j))
      as [Heq | Hneq].
    + apply controlKey_inj in Heq. subst j.
      destruct (Nat.leb_spec (S a) a); [ lia | ].
      destruct (Nat.leb_spec a a); [ | lia ].
      destruct (Nat.ltb_spec a (a + S k)); [ | lia ].
      reflexivity.
    + assert (Hj : a <> j) by congruence.
      destruct (Nat.leb_spec (S a) j); destruct (Nat.ltb_spec j (S a + k));
        destruct (Nat.leb_spec a j); destruct (Nat.ltb_spec j (a + S k));
        cbn; auto; lia.
Qed.

Lemma lookup_controls_other :
  forall (k a : nat) (o : list (string * Control)) (key : string),
    (forall j, (a <= j < a + k)%nat -> key <> PolyControl.controlKey j) ->
    lookup (fold_left add_control (seq a k) o) key = lookup o key.
Proof.
  induction k as [| k IH]; intros a o key Hother.
  - reflexivity.
  - cbn [seq fold_left]. rewrite IH.
    + unfold add_control. rewrite lookup_assign.
      destruct (String.eqb_spec (PolyControl.controlKey a) key) as [Heq | Hneq];
        [ | reflexivity ].
      exfalso. apply (Hother a); [ lia | congruence ].
    + intros j Hj. apply Hother. lia.
Qed.

Lemma key_among_controls :
  forall (k a : nat) (key : string),
    (exists j, (a <= j < a + k)%nat /\ key = PolyControl.controlKey j)
    \/ (forall j, (a <= j < a + k)%nat -> key <> PolyControl.controlKey j).
Proof.
  induction k as [| k IH]; intros a key.
  - right. intros j Hj. lia.
  - destruct (String.eqb_spec key (PolyControl.controlKey a)) as [Heq | Hneq].
    + left. exists a. split; [ lia | exact Heq ].
    + destruct (IH (S a) key) as [[j [Hj Hkey]] | Hnone].
      * left. exists j. split; [ lia | exact Hkey ].
      * right. intros j Hj.
        destruct (Nat.eq_dec j a) as [-> | Hja]; [ exact Hneq | ].
        apply Hnone. lia.
Qed.

Lemma length_controls :
  forall (k a : nat) (o : list (string * Control)),
    (forall j, (a <= j)%nat -> lookup o (PolyControl.controlKey j) = None) ->
    List.length (fold_left add_control (seq a k) o) = (List.length o + k)%nat.
Proof.
  induction k as [| k IH]; intros a o Hfresh.
  - cbn. lia.
  - cbn [seq fold_left]. rewrite IH.
    + unfold add_control. rewrite length_assign_fresh by (apply Hfresh; lia). lia.
    + intros j Hj. unfold add_control. rewrite lookup_assign.
      destruct (String.eqb_spec (PolyControl.controlKey a) (PolyControl.controlKey j))
        as [Heq | Hneq].
      * apply controlKey_inj in Heq. lia.
      * apply Hfresh. lia.
Qed.

(** X13: [createPolyControls(n)] builds exactly the controls p0 .. p(n-1), the
    control of key p_i being bound to the vertex of index i: a key is bound
    to a control exactly when it is one of these keys and the control is
    the one of its index, and there are n controls (none when n is not
    positive). *)
Theorem createPolyControls_controls :
  forall (numOfControls : Z) (key : string) (control : Control),
    (lookup (PolyControl.createPolyControls numOfControls) key = Some control
     <-> exists idx : nat,
           (Z.of_nat idx < numOfControls)%Z
           /\ key = PolyControl.controlKey idx
           /\ control = {| pointIndex := Z.of_nat idx |})
    /\ List.length (PolyControl.createPolyControls numOfControls)
       = Z.to_nat numOfControls.
Proof.
  intros numOfControls key control.
  unfold PolyControl.createPolyControls.
  change (fun controls idx =>
            PolyControl.assign controls (PolyControl.controlKey idx)
              {| pointIndex := Z.of_nat idx |})
    with add_control.
  split.
  - split.
    + intros Hlookup.
      destruct (key_among_controls (Z.to_nat numOfControls) 0 key)
        as [[j [Hj Hkey]] | Hnone].
      * subst key. rewrite lookup_controls_key in Hlookup.
        destruct (Nat.leb_spec 0 j); [ | lia ].
        destruct (Nat.ltb_spec j (0 + Z.to_nat numOfControls)); [ | lia ].
        cbn in Hlookup. exists j.
        split; [ lia | ]. split; [ reflexivity | congruence ].
      * rewrite lookup_controls_other in Hlookup by exact Hnone. discriminate.
    + intros [idx [Hidx [-> ->]]].
      rewrite lookup_controls_key.
      destruct (Nat.leb_spec 0 idx); [ | lia ].
      destruct (Nat.ltb_spec idx (0 + Z.to_nat numOfControls)); [ | lia ].
      reflexivity.
  - rewrite length_controls; [ reflexivity | ].
    intros j _. reflexivity.
Qed.

End CreateControls.

Section ControlsOfShape.
Context {T : Type} `{Number T} `{MathObject T}
  `{Polyline.Collaborators T} `{PolyControl.ControlUtil T}.

Lemma anchorIndexOf_bounds :
  forall (poly : Polyline.t T) (currentControl : Control),
    (0 <= pointIndex currentControl < Z.of_nat (List.length (Polyline.points poly)))%Z ->
    (0 <= PolyControl.anchorIndexOf poly currentControl
       < Z.of_nat (List.length (Polyline.points poly)))%Z.
Proof.
  intros poly currentControl Hindex. unfold PolyControl.anchorIndexOf.
  destruct (Z.ltb_spec 0 (pointIndex currentControl)); lia.
Qed.

(** X14: a shape whose controls were built by [createPolyControls] for the number
    of its points, and whose [__corner] is the key of one of them, is
    dragged without a throw: the action handler of the control returns
    true. *)
Theorem actionHandler_on_created_controls :
  forall (poly : Polyline.t T) (x y : T) (idx : nat),
    Polyline.controls poly
      = PolyControl.createPolyControls (Z.of_nat (List.length (Polyline.points poly))) ->
    Polyline.__corner poly = PolyControl.controlKey idx ->
    (idx < List.length (Polyline.points poly))%nat ->
    exists poly' : Polyline.t T,
      PolyControl.actionHandler poly x y = Some (true, poly')
      /\ Polyline.complexity poly' = Polyline.complexity poly.
Proof.
  intros poly x y idx Hcontrols Hcorner Hidx.
  assert (Hcontrol : PolyControl.currentControlOf poly
                     = Some {| pointIndex := Z.of_nat idx |}).
  { unfold PolyControl.currentControlOf. rewrite Hcontrols, Hcorner.
    unfold PolyControl.createPolyControls.
    change (fun controls idx =>
              PolyControl.assign controls (PolyControl.controlKey idx)
                {| pointIndex := Z.of_nat idx |})
      with add_control.
    rewrite lookup_controls_key.
    destruct (Nat.leb_spec 0 idx); [ | lia ].
    destruct (Nat.ltb_spec idx
                (0 + Z.to_nat (Z.of_nat (List.length (Polyline.points poly)))));
      [ reflexivity | lia ]. }
  set (currentControl := {| pointIndex := Z.of_nat idx |}) in *.
  assert (Hindex : (0 <= pointIndex currentControl
                    < Z.of_nat (List.length (Polyline.points poly)))%Z).
  { subst currentControl. cbn. lia. }
  pose proof (polyActionHandler_step poly x y currentControl Hcontrol Hindex) as Hfn.
  set (poly1 := Polyline.setDimensions _) in Hfn.
  assert (Hlen : List.length (Polyline.points poly1)
                 = List.length (Polyline.points poly)).
  { subst poly1. rewrite setDimensions_points.
    cbn [Polyline.points Polyline.set_points]. apply replace_nth_length. }
  pose proof (anchorIndexOf_bounds poly currentControl Hindex) as Hanchor.
  destruct (array_get_in_range (Polyline.points poly) _ Hanchor) as [anchor Hget].
  destruct (array_get_in_range (Polyline.points poly1)
              (PolyControl.anchorIndexOf poly currentControl))
    as [anchor1 Hget1]; [ rewrite Hlen; exact Hanchor | ].
  eexists. split.
  - unfold PolyControl.actionHandler.
    apply (anchorWrapper_runs PolyControl.polyActionHandler poly poly1 x y
             currentControl).
    + exact Hcontrol.
    + unfold PolyControl.absolutePointOf. rewrite Hget. reflexivity.
    + exact Hfn.
    + unfold PolyControl.newPositionOf. rewrite Hget1. reflexivity.
  - unfold Polyline.complexity.
    cbn [Polyline.points Polyline.setPositionByOrigin Polyline.set_top Polyline.set_left].
    exact Hlen.
Qed.

End ControlsOfShape.

(** * Rendering and export *)

Section RenderAndExport.
Context {T : Type} `{Number T} `{Polyline.Output T}.
Local Open Scope num_scope.

Lemma flat_map_map :
  forall (A B C : Type) (f : B -> list C) (g : A -> B) (l : list A),
    flat_map f (map g l) = flat_map (fun a => f (g a)) l.
Proof.
  intros A B C f g l. induction l as [| a rest IH]; cbn; [ | rewrite IH ]; reflexivity.
Qed.

Lemma length_toSVG_points :
  forall (diffX diffY : T) (points : list (Point.t T)),
    List.length
      (flat_map
         (fun p =>
            [Polyline.piece_number
               (Polyline.toFixed (Point.x p - diffX) Polyline.NUM_FRACTION_DIGITS);
             Polyline.piece_string ",";
             Polyline.piece_number
               (Polyline.toFixed (Point.y p - diffY) Polyline.NUM_FRACTION_DIGITS);
             Polyline.piece_string " "])
         points)
    = (4 * List.length points)%nat.
Proof.
  intros diffX diffY points.
  induction points as [| p rest IH]; [ reflexivity | ].
  simpl. simpl in IH. rewrite IH. lia.
Qed.

(** X15: [_toSVG] has no guard of the kind [commonRender] has: it always returns
    its five parts and exports every point with four pieces (x, a comma, y,
    a space), whatever the coordinates hold.  With no point the [points]
    attribute is empty and the element is written all the same. *)
Theorem _toSVG_exports_every_point :
  forall this : Polyline.t T,
    List.length (Polyline._toSVG_points this) = (4 * Polyline.complexity this)%nat
    /\ List.length (Polyline._toSVG this) = 5%nat
    /\ (Polyline.points this = [] ->
        Polyline._toSVG this
        = ["<polyline "%string; "COMMON_PARTS"%string;
           ("points=" ++ Polyline.double_quote)%string;
           EmptyString;
           (Polyline.double_quote ++ " />" ++ Polyline.line_feed)%string]).
Proof.
  intros this.
  split; [ apply length_toSVG_points | ].
  split; [ reflexivity | ].
  intros Hempty.
  unfold Polyline._toSVG, Polyline._toSVG_points. rewrite Hempty. reflexivity.
Qed.

(** X16: the export and the rendering agree on the coordinates: when
    [commonRender] draws on a fresh context, the targets of the [lineTo]
    commands it issues, rounded by [toFixed] and separated as [_toSVG]
    separates them, are the pieces of the [points] attribute, in the same
    order. *)
Theorem _toSVG_follows_commonRender :
  forall this : Polyline.t T,
    let fresh := {| Polyline.rs_this := this; Polyline.rs_ctx := [] |} in
    fst (Polyline.commonRender fresh) = true ->
    flat_map svg_of_command (Polyline.rs_ctx (snd (Polyline.commonRender fresh)))
    = Polyline._toSVG_points this.
Proof.
  intros this fresh. subst fresh.
  unfold Polyline.commonRender, Polyline._toSVG_points.
  cbn [Polyline.rs_this Polyline.rs_ctx].
  destruct (Polyline.points this) as [| first rest] eqn:Hpoints;
    [ cbn; discriminate | ].
  destruct (isNaN (Point.y (List.last (first :: rest) first))); [ cbn; discriminate | ].
  intros _. cbn [snd Polyline.rs_ctx app].
  rewrite !flat_map_app, flat_map_map. reflexivity.
Qed.

(** X17: [_render] paints exactly what [commonRender] has drawn: on a shape the
    guard refuses (no point, or a last point whose y is NaN) it leaves the
    context as it was and [_renderPaintInOrder] is not called; on any other
    shape it is [_renderPaintInOrder] applied to the context that holds the
    path. *)
Theorem _render_paints_the_path :
  forall st : Polyline.RenderState T,
    let this := Polyline.rs_this st in
    (render_skipped this -> Polyline._render st = st)
    /\ (forall first : Point.t T,
          array_get (Polyline.points this) 0 = Some first ->
          isNaN (Point.y (List.last (Polyline.points this) first)) = false ->
          Polyline._render st
          = Polyline._renderPaintInOrder
              {| Polyline.rs_this := this;
                 Polyline.rs_ctx := Polyline.rs_ctx st ++ render_path this first |}).
Proof.
  intros st this. subst this.
  unfold Polyline._render, Polyline.commonRender.
  split.
  - intros [Hempty | [lastPoint [Hlast Hnan]]].
    + rewrite Hempty. reflexivity.
    + destruct (Polyline.points (Polyline.rs_this st)) as [| first rest] eqn:Hpoints;
        [ reflexivity | ].
      rewrite <- Hpoints in Hlast.
      assert (Heq : List.last (first :: rest) first = lastPoint).
      { rewrite <- Hpoints.
        pose proof (array_get_last _ (Polyline.points (Polyline.rs_this st)) first) as Hl.
        rewrite Hlast in Hl.
        assert (Hne : Polyline.points (Polyline.rs_this st) <> [])
          by (rewrite Hpoints; discriminate).
        specialize (Hl Hne). congruence. }
      rewrite Heq, Hnan. reflexivity.
  - intros first Hfirst Hnan.
    destruct (Polyline.points (Polyline.rs_this st)) as [| first' rest] eqn:Hpoints;
      [ discriminate | ].
    cbn in Hfirst. injection Hfirst as ->.
    rewrite Hnan. cbn [negb].
    unfold render_path. rewrite Hpoints.
    rewrite <- !app_assoc. reflexivity.
Qed.

End RenderAndExport.

(** * The properties at concrete shapes *)


(** X8 at a concrete shape.
    The drag of the third corner of the square (binary64): the anchor is
    the second corner, and the handler leaves it where it was. *)
Lemma anchor_is_previous_vertex_witness :
  let currentControl := {| pointIndex := 2 |} in
  let anchorIndex := PolyControl.anchorIndexOf square64 currentControl in
  anchorIndex = 1%Z
  /\ (0 <= anchorIndex < Z.of_nat (List.length (Polyline.points square64)))%Z
  /\ (anchorIndex = pointIndex currentControl
      <-> List.length (Polyline.points square64) = 1%nat)
  /\ (List.length (Polyline.points square64) <> 1%nat ->
      exists poly' : Polyline.t float,
        @PolyControl.polyActionHandler float _ _ sample_collaborators sample_util
          square64 7%float 7%float = Some (true, poly')
        /\ array_get (Polyline.points poly') anchorIndex
           = array_get (Polyline.points square64) anchorIndex).
Proof.
  intros currentControl anchorIndex.
  split; [ reflexivity | ].
  apply (@anchor_is_previous_vertex float _ _ sample_collaborators sample_util
           square64 7%float 7%float currentControl).
  - reflexivity.
  - vm_compute. split; [ discriminate | reflexivity ].
Defined.

(** X9 at a concrete shape.
    A shape with no point at all: the wrapped drag handler throws. *)
Lemma anchorWrapper_no_point_witness :
  let poly := @plain_shape float _ [] two_controls "p0" in
  Polyline.points poly = []
  /\ @PolyControl.anchorWrapper float _ _ sample_collaborators
       (@PolyControl.polyActionHandler float _ _ sample_collaborators sample_util)
       poly 1%float 1%float = None.
Proof.
  intros poly.
  split; [ reflexivity | ].
  apply (@anchorWrapper_no_point float _ _ sample_collaborators). reflexivity.
Defined.

(** X7 at a concrete shape.
    The drag of the end of the diagonal (exact arithmetic) to the pointer at
    (5,0) from the center. *)
Lemma polyActionHandler_new_vertex_witness :
  let mouseLocalPosition :=
    @PolyControl.getLocalPoint R sample_util diagonal origin_center origin_center
      5%R 0%R in
  let sizeFactor :=
    Point.divide (PolyControl.getSize diagonal)
                 (@Polyline._getTransformedDimensions R _ sample_collaborators diagonal [])
  in
  exists poly' : Polyline.t R,
    @PolyControl.polyActionHandler R _ _ sample_collaborators sample_util
      diagonal 5%R 0%R = Some (true, poly')
    /\ array_get (Polyline.points poly') 1
       = Some (Point.add
                 (PolyControl.removeSkew
                    (Point.multiply
                       (Point.multiply mouseLocalPosition
                          (PolyControl.adjustFlipOf diagonal))
                       sizeFactor)
                    (PolyControl.shearOf diagonal))
                 (Polyline.pathOffset diagonal)).
Proof.
  destruct diagonal_control as [Hcontrol [Hindex _]].
  exact (@polyActionHandler_new_vertex sample_collaborators sample_util
           diagonal 5%R 0%R {| pointIndex := 1 |} Hcontrol Hindex).
Defined.

(** X12 at a concrete shape.
    The end of the diagonal seen through a viewport zoomed twice. *)
Lemma positionHandler_through_viewport_witness :
  let viewport := TMat2D.mk 2%R 0%R 0%R 2%R 5%R 7%R in
  Polyline.canvas zoomed = Some {| viewportTransform := Some viewport |}
  /\ @PolyControl.positionHandler R _ _ sample_collaborators
       {| pointIndex := 1 |} zoomed
     = Some (Point.transform
               (Point.transform
                  (Point.subtract (Point.mk 10%R 10%R) (Polyline.pathOffset zoomed))
                  (@Polyline.calcTransformMatrix R _ _ sample_collaborators zoomed))
               viewport).
Proof.
  intros viewport.
  split; [ reflexivity | ].
  apply (@positionHandler_through_viewport sample_collaborators
           {| pointIndex := 1 |} zoomed
           {| viewportTransform := Some viewport |} viewport (Point.mk 10%R 10%R));
    reflexivity.
Defined.

(** X14 at a concrete shape.
    The diagonal (binary64) carries the controls [createPolyControls(2)]
    builds; the drag of its control p1 returns true. *)
Lemma actionHandler_on_created_controls_witness :
  Polyline.controls diagonal64 = PolyControl.createPolyControls 2
  /\ exists poly' : Polyline.t float,
       @PolyControl.actionHandler float _ _ sample_collaborators sample_util
         diagonal64 5%float 0%float = Some (true, poly')
       /\ Polyline.complexity poly' = Polyline.complexity diagonal64.
Proof.
  split; [ reflexivity | ].
  apply (@actionHandler_on_created_controls float _ _ sample_collaborators sample_util
           diagonal64 5%float 0%float 1%nat).
  - vm_compute. reflexivity.
  - vm_compute. reflexivity.
  - vm_compute. lia.
Defined.

(** X16 at a concrete shape.
    The segment from (1,2) to (4,6) (binary64) is drawn, and its export
    lists the targets of the lines drawn. *)
Lemma _toSVG_follows_commonRender_witness :
  let fresh := {| Polyline.rs_this := segment64; Polyline.rs_ctx := [] |} in
  fst (Polyline.commonRender fresh) = true
  /\ flat_map (@svg_of_command float sample_output)
              (Polyline.rs_ctx (snd (Polyline.commonRender fresh)))
     = @Polyline._toSVG_points float _ sample_output segment64.
Proof.
  intros fresh.
  split; [ vm_compute; reflexivity | ].
  apply (@_toSVG_follows_commonRender float _ sample_output segment64).
  vm_compute. reflexivity.
Defined.

(** A last point whose y is NaN: nothing is drawn, and the export writes
    the two points all the same. *)
Example unparsed_is_exported_not_drawn :
  let fresh := {| Polyline.rs_this := unparsed64; Polyline.rs_ctx := [] |} in
  Polyline.commonRender fresh = (false, fresh)
  /\ @Polyline._render float _ sample_output fresh = fresh
  /\ @Polyline._toSVG float _ sample_output unparsed64
     = ["<polyline "%string; "COMMON_PARTS"%string;
        ("points=" ++ Polyline.double_quote)%string;
        "#,# #,# "%string;
        (Polyline.double_quote ++ " />" ++ Polyline.line_feed)%string].
Proof.
  cbv zeta. repeat split; vm_compute; reflexivity.
Qed.

(** The controls of a triangle, as [createPolyControls(3)] builds them. *)
Example createPolyControls_3 :
  PolyControl.createPolyControls 3
  = [("p0"%string, {| pointIndex := 0 |}); ("p1"%string, {| pointIndex := 1 |});
     ("p2"%string, {| pointIndex := 2 |})]
  /\ PolyControl.createPolyControls 0 = []
  /\ PolyControl.createPolyControls (-1) = []
  /\ PolyControl.controlKey 12 = "p12"%string.
Proof.
  repeat split; vm_compute; reflexivity.
Qed.
